(** * FeatureFolderEncrypt: batch encryption and decryption of a folder

    A shallow embedding of
    [src/features/feature-folder-encrypt/FeatureFolderEncrypt.ts].

    The plugin code is a sequence of awaited calls into the host application
    (vault, workspace, password modal) and into the crypto services.  It is
    embedded in a state-and-exception monad over a [World] that holds the
    vault, the workspace leaves, the session password service and the trace
    of the calls made so far.  A thrown exception (or a rejected promise)
    keeps the state reached when it was thrown, as in JavaScript. *)

From Stdlib Require Import Ascii String.
From stdpp Require Import gmap strings list pretty.

Open Scope string_scope.
Open Scope list_scope.

(** ** Strings and paths *)

Definition slash : ascii := Ascii.ascii_of_nat 47.
Definition dot : ascii := Ascii.ascii_of_nat 46.
Definition dquote : string := String (Ascii.ascii_of_nat 34) EmptyString.

(** [has_char c s]: the character [c] occurs in [s]. *)
Fixpoint has_char (c : ascii) (s : string) : bool :=
  match s with
  | EmptyString => false
  | String a s' => if decide (a = c) then true else has_char c s'
  end.

(** [split_last c s] cuts [s] at the last occurrence of [c]. *)
Fixpoint split_last (c : ascii) (s : string) : option (string * string) :=
  match s with
  | EmptyString => None
  | String a s' =>
      match split_last c s' with
      | Some (l, r) => Some (String a l, r)
      | None => if decide (a = c) then Some (EmptyString, s') else None
      end
  end.

(** The fields the host derives from a file's path: [TFile.name],
    [TFile.basename], [TFile.extension] and the path of [TFile.parent]
    (empty for a file at the top of the vault). *)
Definition name_of (p : string) : string :=
  match split_last slash p with Some (_, n) => n | None => p end.

Definition parent_of (p : string) : string :=
  match split_last slash p with Some (d, _) => d | None => EmptyString end.

Definition basename_of (p : string) : string :=
  match split_last dot (name_of p) with Some (b, _) => b | None => name_of p end.

Definition extension_of (p : string) : string :=
  match split_last dot (name_of p) with Some (_, e) => e | None => EmptyString end.

(** ** Data model *)

(** A [TFile] is a mutable object of the host: the code holds a reference to
    it, and a rename changes the path seen through every reference.  A
    reference is the index of the object in the vault's listing. *)
Definition TFile := nat.

Record TFileObj := { path : string; data : string }.

Definition extension (o : TFileObj) : string := extension_of (path o).

Record TFolder := { folder_path : string; folder_name : string }.

Record PasswordAndHint := { password : string; hint : string }.

(** The classes of view the code tells apart with [instanceof]:
    [EncryptedMarkdownView] is a subclass of [TextFileView]; every other
    view is an [OtherView]. *)
Inductive ViewClass := OtherView | TextFileView | EncryptedMarkdownView.

Definition instanceofTextFileView (c : ViewClass) : bool :=
  match c with OtherView => false | _ => true end.

Definition instanceofEncryptedMarkdownView (c : ViewClass) : bool :=
  match c with EncryptedMarkdownView => true | _ => false end.

Record WorkspaceLeaf := {
  leaf_id : nat;
  view_class : ViewClass;
  view_file : option TFile
}.

Inductive Level := LevelExternalFile | LevelOther (name : string).

(** Modelled from the spec: [SessionPasswordService] (its source file is not
    part of the feature).  The spec describes it as process-wide state
    mapping a path to a [PasswordAndHint], with a configured level; a lookup
    that finds nothing answers the blank password and hint. *)
Record SessionPasswordService := {
  level : Level;
  entries : gmap string PasswordAndHint
}.

Definition blankPasswordAndHint : PasswordAndHint :=
  {| password := EmptyString; hint := EmptyString |}.

Definition Exn := string.

(** The calls the feature makes, in the order it makes them. *)
Inductive Event :=
| EvGetByPath (p : string)
| EvPasswordModal (title : string) (isEncrypting confirmPassword : bool)
                  (seed : PasswordAndHint)
| EvRead (f : TFile)
| EvDetachSafely (leaf : nat)
| EvDetach (leaf : nat)
| EvRenameFile (f : TFile) (newPath : string)
| EvModify (f : TFile) (content : string)
| EvPutByFile (pw : PasswordAndHint) (f : TFile)
| EvOpenFile (leaf : nat) (f : TFile)
| EvConsoleError (msg : string) (file : string) (err : Exn)
| EvNotice (msg : string).

(** [next_leaf] numbers the leaf objects created so far: a new leaf is an
    object distinct from every earlier one, attached or detached. *)
Record World := {
  vault : list TFileObj;
  leaves : list WorkspaceLeaf;
  next_leaf : nat;
  session : SessionPasswordService;
  trace : list Event
}.

Definition log (e : Event) (w : World) : World :=
  {| vault := vault w; leaves := leaves w; next_leaf := next_leaf w;
     session := session w; trace := trace w ++ [e] |}.

Definition set_vault (v : list TFileObj) (w : World) : World :=
  {| vault := v; leaves := leaves w; next_leaf := next_leaf w;
     session := session w; trace := trace w |}.

Definition set_leaves (ls : list WorkspaceLeaf) (w : World) : World :=
  {| vault := vault w; leaves := ls; next_leaf := next_leaf w;
     session := session w; trace := trace w |}.

Definition set_session (s : SessionPasswordService) (w : World) : World :=
  {| vault := vault w; leaves := leaves w; next_leaf := next_leaf w;
     session := s; trace := trace w |}.

(** ** The monad *)

Inductive Result (A : Type) := Ok (a : A) | Throw (e : Exn).
Arguments Ok {A} a.
Arguments Throw {A} e.

Definition M (A : Type) : Type := World -> Result A * World.

Definition ret {A} (a : A) : M A := fun w => (Ok a, w).

Definition throw {A} (e : Exn) : M A := fun w => (Throw e, w).

Definition bind {A B} (m : M A) (k : A -> M B) : M B :=
  fun w =>
    match m w with
    | (Ok a, w1) => k a w1
    | (Throw e, w1) => (Throw e, w1)
    end.

(** [try { m } catch (e) { h e }] *)
Definition tryCatch {A} (m : M A) (h : Exn -> M A) : M A :=
  fun w =>
    match m w with
    | (Ok a, w1) => (Ok a, w1)
    | (Throw e, w1) => h e w1
    end.

(** [try { m } finally { fin }]: [fin] runs on both exits; when it throws,
    its exception replaces the outcome of [m]. *)
Definition tryFinally {A} (m : M A) (fin : M unit) : M A :=
  fun w =>
    match m w with
    | (r, w1) =>
        match fin w1 with
        | (Ok _, w2) => (r, w2)
        | (Throw e, w2) => (Throw e, w2)
        end
    end.

Definition emit (e : Event) : M unit := fun w => (Ok tt, log e w).

(** Reads the state. *)
Definition gets {A} (f : World -> A) : M A := fun w => (Ok (f w), w).

(** Lifts the answer of a collaborator, which may depend on the state. *)
Definition ask {A} (f : World -> Result A) : M A := fun w => (f w, w).

Notation "'let*' x ':=' m 'in' k" := (bind m (fun x => k))
  (at level 10, x name, m at level 100, k at level 200).
Notation "'exec' m 'in' k" := (bind m (fun _ => k))
  (at level 10, m at level 100, k at level 200).

(** ** The collaborators

    Everything the feature calls but does not define: the faults of the
    vault and of the workspace, the crypto helper, the codec, the password
    modal and the two constants of [services/Constants.ts].  Each answer may
    depend on the state of the world at the call. *)
Record Host := {
  Envelope : Type;
  read_fault : World -> TFile -> option Exn;
  renameFile_fault : World -> TFile -> string -> option Exn;
  modify_fault : World -> TFile -> string -> option Exn;
  openFile_fault : World -> TFile -> option Exn;
  viewClassFor : string -> ViewClass;
  FileDataHelper_encrypt : World -> string -> string -> string -> Result Envelope;
  FileDataHelper_decrypt : World -> Envelope -> string -> Result (option string);
  JsonFileEncoding_encode : Envelope -> string;
  JsonFileEncoding_decode : string -> Result Envelope;
  PluginPasswordModal_openAsync :
    World -> string -> bool -> bool -> PasswordAndHint -> Result PasswordAndHint;
  ENCRYPTED_FILE_EXTENSIONS : list string;
  ENCRYPTED_FILE_EXTENSION_DEFAULT : string
}.

(** ** The feature *)

Section FeatureFolderEncrypt.

Variable host : Host.

(** *** Vault *)

(** The object behind a reference. *)
Definition tfile (w : World) (f : TFile) : TFileObj :=
  default {| path := EmptyString; data := EmptyString |} (vault w !! f).

(** [vault.getFiles()] *)
Definition getFiles (w : World) : list TFile := seq 0 (length (vault w)).

(** A reference outside the vault is a file that no longer exists: every
    storage call on it fails. *)
Definition ENOENT : Exn := "ENOENT".

(** [vault.read(file)] *)
Definition read (file : TFile) : M string :=
  fun w =>
    let w1 := log (EvRead file) w in
    match vault w !! file with
    | None => (Throw ENOENT, w1)
    | Some o =>
        match read_fault host w file with
        | Some e => (Throw e, w1)
        | None => (Ok (data o), w1)
        end
    end.

(** [fileManager.renameFile(file, newPath)]: the object keeps its identity
    and takes the new path. *)
Definition renameFile (file : TFile) (newPath : string) : M unit :=
  fun w =>
    let w1 := log (EvRenameFile file newPath) w in
    match vault w !! file with
    | None => (Throw ENOENT, w1)
    | Some o =>
        match renameFile_fault host w file newPath with
        | Some e => (Throw e, w1)
        | None =>
            (Ok tt, set_vault (<[file := {| path := newPath; data := data o |}]> (vault w)) w1)
        end
    end.

(** [vault.modify(file, content)] *)
Definition modify (file : TFile) (content : string) : M unit :=
  fun w =>
    let w1 := log (EvModify file content) w in
    match vault w !! file with
    | None => (Throw ENOENT, w1)
    | Some o =>
        match modify_fault host w file content with
        | Some e => (Throw e, w1)
        | None =>
            (Ok tt, set_vault (<[file := {| path := path o; data := content |}]> (vault w)) w1)
        end
    end.

(** Modelled from the spec: [Utils.getFilePathWithNewExtension] (from
    [services/Utils.ts], not part of the feature): it replaces the final
    extension segment of the file's path and preserves the directory and the
    base name. *)
Definition getFilePathWithNewExtension (o : TFileObj) (newExtension : string) : string :=
  let dir :=
    match split_last slash (path o) with
    | Some (d, _) => d +:+ "/"
    | None => EmptyString
    end in
  dir +:+ basename_of (path o) +:+ "." +:+ newExtension.

(** *** Session passwords *)

(** Modelled from the spec: [SessionPasswordService.getLevel]. *)
Definition getLevel : M Level := fun w => (Ok (level (session w)), w).

(** Modelled from the spec: [SessionPasswordService.getByPathAsync], the
    lookup of the cache for a path. *)
Definition getByPath (s : SessionPasswordService) (p : string) : PasswordAndHint :=
  default blankPasswordAndHint (entries s !! p).

Definition getByPathAsync (p : string) : M PasswordAndHint :=
  fun w => (Ok (getByPath (session w) p), log (EvGetByPath p) w).

(** Modelled from the spec: [SessionPasswordService.putByFile], which
    remembers the password against the path the file has at the call. *)
Definition putByFile (pw : PasswordAndHint) (file : TFile) : M unit :=
  fun w =>
    (Ok tt,
     log (EvPutByFile pw file)
       (set_session {| level := level (session w);
                       entries := <[path (tfile w file) := pw]> (entries (session w)) |} w)).

(** *** Workspace *)

Definition without_leaf (id : nat) (ls : list WorkspaceLeaf) : list WorkspaceLeaf :=
  List.filter (fun x => negb (Nat.eqb (leaf_id x) id)) ls.

(** [leaf.detach()] *)
Definition detach (l : WorkspaceLeaf) : M unit :=
  fun w => (Ok tt, log (EvDetach (leaf_id l)) (set_leaves (without_leaf (leaf_id l) (leaves w)) w)).

(** [EncryptedMarkdownView.detachSafely()] *)
Definition detachSafely (l : WorkspaceLeaf) : M unit :=
  fun w => (Ok tt, log (EvDetachSafely (leaf_id l)) (set_leaves (without_leaf (leaf_id l) (leaves w)) w)).

(** [workspace.iterateAllLeaves(cb)], over the leaves present at the call.
    The callback of the feature assigns one captured variable, threaded
    here as [acc]. *)
Fixpoint iterateAllLeaves (cb : WorkspaceLeaf -> bool -> M bool)
    (ls : list WorkspaceLeaf) (acc : bool) : M bool :=
  match ls with
  | [] => ret acc
  | l :: rest => let* acc' := cb l acc in iterateAllLeaves cb rest acc'
  end.

(** [workspace.getLeaf(true)]: a new, empty leaf. *)
Definition getLeaf : M nat :=
  fun w =>
    let id := next_leaf w in
    (Ok id,
     {| vault := vault w;
        leaves := leaves w ++ [{| leaf_id := id; view_class := OtherView; view_file := None |}];
        next_leaf := S id;
        session := session w;
        trace := trace w |}).

(** [leaf.openFile(file)] *)
Definition openFile (leaf : nat) (file : TFile) : M unit :=
  fun w =>
    let w1 := log (EvOpenFile leaf file) w in
    match vault w !! file with
    | None => (Throw ENOENT, w1)
    | Some o =>
        match openFile_fault host w file with
        | Some e => (Throw e, w1)
        | None =>
            let shown := {| leaf_id := leaf; view_class := viewClassFor host (extension o);
                            view_file := Some file |} in
            (Ok tt,
             set_leaves (map (fun x => if Nat.eqb (leaf_id x) leaf then shown else x) (leaves w)) w1)
        end
    end.

(** *** Selecting the files *)

Definition startsWith (s prefix : string) : bool := String.prefix prefix s.

Definition includes (l : list string) (s : string) : bool := existsb (String.eqb s) l.

Definition getFilesRecursively (folder : TFolder) (w : World) : list TFile :=
  let allFiles := getFiles w in
  let prefix :=
    if Nat.ltb 0 (String.length (folder_path folder)) then folder_path folder +:+ "/"
    else EmptyString in
  List.filter (fun f => startsWith (path (tfile w f)) prefix) allFiles.

Definition getMarkdownFiles (folder : TFolder) (w : World) : list TFile :=
  List.filter (fun f => String.eqb (extension (tfile w f)) "md")
    (getFilesRecursively folder w).

Definition getEncryptedFiles (folder : TFolder) (w : World) : list TFile :=
  List.filter (fun f => includes (ENCRYPTED_FILE_EXTENSIONS host) (extension (tfile w f)))
    (getFilesRecursively folder w).

(** *** Password for the folder *)

Definition isLevelExternalFile (l : Level) : bool :=
  match l with LevelExternalFile => true | LevelOther _ => false end.

(** [new PluginPasswordModal(app, title, isEncrypting, confirmPassword,
    defaultPwh).openAsync()]; the promise is rejected when the user
    dismisses the modal. *)
Definition openAsync (title : string) (isEncrypting confirmPassword : bool)
    (defaultPwh : PasswordAndHint) : M PasswordAndHint :=
  fun w =>
    (PluginPasswordModal_openAsync host w title isEncrypting confirmPassword defaultPwh,
     log (EvPasswordModal title isEncrypting confirmPassword defaultPwh) w).

(** [None] is the [null] of the source. *)
Definition promptPasswordForFolder (title : string) (isEncrypting : bool)
    (defaultPath : string) : M (option PasswordAndHint) :=
  let* lvl := getLevel in
  if isLevelExternalFile lvl then
    let* pwh := getByPathAsync defaultPath in
    ret (Some pwh)
  else
    let* pwh := getByPathAsync defaultPath in
    if String.eqb (password pwh) EmptyString then
      tryCatch
        (let* entered := openAsync title isEncrypting (*confirmPassword*) isEncrypting pwh in
         ret (Some entered))
        (fun _ => ret None (* cancelled *))
    else ret (Some pwh).

(** *** One file *)

Definition encryptFile (file : TFile) (passwordAndHint : PasswordAndHint) : M string :=
  let* content := read file in
  let* encryptedData :=
    ask (fun w => FileDataHelper_encrypt host w (password passwordAndHint)
                    (hint passwordAndHint) content) in
  ret (JsonFileEncoding_encode host encryptedData).

(** [None] is the [null] of the source. *)
Definition decryptFile (file : TFile) (pw : string) : M (option string) :=
  let* encryptedFileContent := read file in
  let* encryptedData := ask (fun _ => JsonFileEncoding_decode host encryptedFileContent) in
  ask (fun w => FileDataHelper_decrypt host w encryptedData pw).

(** The test of the callback given to [iterateAllLeaves]. *)
Definition showsFile (file : TFile) (l : WorkspaceLeaf) : bool :=
  instanceofTextFileView (view_class l) && bool_decide (view_file l = Some file).

Definition detachCallback (file : TFile) (l : WorkspaceLeaf) (didDetach : bool) : M bool :=
  if showsFile file l then
    exec (if instanceofEncryptedMarkdownView (view_class l) then detachSafely l
          else detach l) in
    ret true
  else ret didDetach.

Definition closeUpdateRememberPasswordThenReopen (file : TFile)
    (newFileExtension content : string) (pw : PasswordAndHint) : M unit :=
  let* ls := gets leaves in
  let* didDetach := iterateAllLeaves (detachCallback file) ls false in
  tryFinally
    (let* newFilepath :=
       gets (fun w => getFilePathWithNewExtension (tfile w file) newFileExtension) in
     exec renameFile file newFilepath in
     exec modify file content in
     putByFile pw file)
    (if didDetach then
       let* leaf := getLeaf in
       openFile leaf file
     else ret tt).

(** *** The batch *)

Definition console_error (msg : string) (file : TFile) (err : Exn) : M unit :=
  fun w => (Ok tt, log (EvConsoleError msg (path (tfile w file)) err) w).

(** The loop of both batches:
    [for (const file of files) { try { body; ok++ } catch (err) {
    console.error(msg, ...); fail++ } }], returning the two counters. *)
Fixpoint forOfTryCatch (msg : string) (body : TFile -> M unit) (files : list TFile)
    (ok fail : nat) : M (nat * nat) :=
  match files with
  | [] => ret (ok, fail)
  | file :: rest =>
      let* c :=
        tryCatch
          (exec body file in ret (S ok, fail))
          (fun err => exec console_error msg file err in ret (ok, S fail)) in
      forOfTryCatch msg body rest (fst c) (snd c)
  end.

(** The [try] block of the loop of [processEncryptFolder], for one file. *)
Definition encryptOne (pwh : PasswordAndHint) (file : TFile) : M unit :=
  let* encryptedContent := encryptFile file pwh in
  closeUpdateRememberPasswordThenReopen file (ENCRYPTED_FILE_EXTENSION_DEFAULT host)
    encryptedContent pwh.

(** The [try] block of the loop of [processDecryptFolder], for one file. *)
Definition decryptOne (pwh : PasswordAndHint) (file : TFile) : M unit :=
  let* decryptedContent := decryptFile file (password pwh) in
  match decryptedContent with
  | None => throw "Decryption failed"
  | Some decryptedContent =>
      closeUpdateRememberPasswordThenReopen file "md" decryptedContent pwh
  end.

(** [`Folder ${verb}: ${ok} ok, ${fail} failed`] *)
Definition summary (verb : string) (ok fail : nat) : string :=
  "Folder " +:+ verb +:+ ": " +:+ pretty ok +:+ " ok, " +:+ pretty fail +:+ " failed".

Definition processEncryptFolder (folder : TFolder) : M unit :=
  let* files := gets (getMarkdownFiles folder) in
  if Nat.eqb (length files) 0 then
    emit (EvNotice "No markdown files to encrypt in this folder.")
  else
    let* pwh :=
      promptPasswordForFolder ("Encrypt Folder " +:+ dquote +:+ folder_name folder +:+ dquote)
        true (folder_path folder) in
    match pwh with
    | None => ret tt
    | Some pwh =>
        let* c := forOfTryCatch "Failed to encrypt" (encryptOne pwh) files 0 0 in
        emit (EvNotice (summary "encrypted" (fst c) (snd c)))
    end.

Definition processDecryptFolder (folder : TFolder) : M unit :=
  let* files := gets (getEncryptedFiles folder) in
  if Nat.eqb (length files) 0 then
    emit (EvNotice "No encrypted files to decrypt in this folder.")
  else
    let* pwh :=
      promptPasswordForFolder ("Decrypt Folder " +:+ dquote +:+ folder_name folder +:+ dquote)
        false (folder_path folder) in
    match pwh with
    | None => ret tt
    | Some pwh =>
        let* c := forOfTryCatch "Failed to decrypt" (decryptOne pwh) files 0 0 in
        emit (EvNotice (summary "decrypted" (fst c) (snd c)))
    end.

(** ** Notions used in the statements *)

(** *** Projections of a trace *)

Definition notices (evs : list Event) : list string :=
  omap (fun e => match e with EvNotice m => Some m | _ => None end) evs.

Definition reads (evs : list Event) : list TFile :=
  omap (fun e => match e with EvRead f => Some f | _ => None end) evs.

Definition consoleErrors (evs : list Event) : list string :=
  omap (fun e => match e with EvConsoleError m _ _ => Some m | _ => None end) evs.

(** Calls that are neither a read, nor a console error, nor a notice. *)
Definition quiet (e : Event) : Prop :=
  match e with
  | EvRead _ | EvConsoleError _ _ _ | EvNotice _ => False
  | _ => True
  end.

(** The two storage mutations of a file. *)
Definition isMutation (e : Event) : Prop :=
  match e with
  | EvRenameFile _ _ | EvModify _ _ => True
  | _ => False
  end.

Definition isOpenFile (e : Event) : Prop :=
  match e with EvOpenFile _ _ => True | _ => False end.

(** *** The three phases of [closeUpdateRememberPasswordThenReopen] *)

Definition detachEvent (l : WorkspaceLeaf) : Event :=
  if instanceofEncryptedMarkdownView (view_class l) then EvDetachSafely (leaf_id l)
  else EvDetach (leaf_id l).

Definition detachEvents (file : TFile) (ls : list WorkspaceLeaf) : list Event :=
  map detachEvent (List.filter (showsFile file) ls).

(** The leaves of [base] left once those of [ls] that show [file] are
    detached. *)
Definition detachAll (file : TFile) (ls base : list WorkspaceLeaf) : list WorkspaceLeaf :=
  foldl (fun b l => without_leaf (leaf_id l) b) base (List.filter (showsFile file) ls).

Definition afterDetach (file : TFile) (ls : list WorkspaceLeaf) (w : World) : World :=
  {| vault := vault w;
     leaves := detachAll file ls (leaves w);
     next_leaf := next_leaf w;
     session := session w;
     trace := trace w ++ detachEvents file ls |}.

(** The block guarded by [try]. *)
Definition updateFile (file : TFile) (newFileExtension content : string)
    (pw : PasswordAndHint) : M unit :=
  let* newFilepath :=
    gets (fun w => getFilePathWithNewExtension (tfile w file) newFileExtension) in
  exec renameFile file newFilepath in
  exec modify file content in
  putByFile pw file.

(** The [finally] block. *)
Definition reopenIfDetached (didDetach : bool) (file : TFile) : M unit :=
  if didDetach then
    let* leaf := getLeaf in
    openFile leaf file
  else ret tt.

(** The calls of the guarded block: a rename, then a write when the rename
    succeeded, then the cache write when the write succeeded. *)
Definition updateCalls (file : TFile) (newPath content : string) (pw : PasswordAndHint)
    (calls : list Event) : Prop :=
  calls = [EvRenameFile file newPath] \/
  calls = [EvRenameFile file newPath; EvModify file content] \/
  calls = [EvRenameFile file newPath; EvModify file content; EvPutByFile pw file].

Definition reopenCalls (didDetach : bool) (file : TFile) (w : World) : list Event :=
  if didDetach then [EvOpenFile (next_leaf w) file] else [].

(** *** Order of the calls

    [DetachedFirst covered file ls evs]: in the calls [evs], made on a
    workspace whose leaves were [ls], every leaf of [ls] selected by
    [covered] is detached before any storage mutation. *)
Definition DetachedFirst (covered : WorkspaceLeaf -> Prop) (ls : list WorkspaceLeaf)
    (evs : list Event) : Prop :=
  forall l, In l ls -> covered l ->
    forall pre e post, evs = pre ++ e :: post -> isMutation e -> In (detachEvent l) pre.

(** A content write comes after a rename of the same file. *)
Definition RenameBeforeModify (file : TFile) (evs : list Event) : Prop :=
  forall pre c post, evs = pre ++ EvModify file c :: post ->
    exists p, In (EvRenameFile file p) pre.

(** No view is opened before a storage mutation. *)
Definition NoOpenBeforeMutation (evs : list Event) : Prop :=
  forall pre e post, evs = pre ++ e :: post -> isMutation e ->
    forall o, In o pre -> ~ isOpenFile o.

(** *** Password resolution, after the spec

    The resolver of the spec: an intent instead of a flag, an outcome that
    is either a password or a cancellation, and the list of the calls the
    resolution makes. *)
Inductive Intent := Encrypting | Decrypting.

Inductive Resolution := Resolved (pwh : PasswordAndHint) | Cancelled.

Definition isEncryptingIntent (i : Intent) : bool :=
  match i with Encrypting => true | Decrypting => false end.

Definition resolve_spec (title : string) (intent : Intent) (directory_path : string)
    (w : World) : Resolution * list Event :=
  let cached := getByPath (session w) directory_path in
  match level (session w) with
  | LevelExternalFile => (Resolved cached, [EvGetByPath directory_path])
  | LevelOther _ =>
      if bool_decide (password cached <> EmptyString) then
        (Resolved cached, [EvGetByPath directory_path])
      else
        let confirmation := match intent with Encrypting => true | Decrypting => false end in
        let prompt :=
          EvPasswordModal title (isEncryptingIntent intent) confirmation cached in
        match PluginPasswordModal_openAsync host (log (EvGetByPath directory_path) w) title
                (isEncryptingIntent intent) confirmation cached with
        | Ok entered => (Resolved entered, [EvGetByPath directory_path; prompt])
        | Throw _ => (Cancelled, [EvGetByPath directory_path; prompt])
        end
  end.

Definition resolution_to_option (r : Resolution) : option PasswordAndHint :=
  match r with Resolved p => Some p | Cancelled => None end.

Definition extend (evs : list Event) (w : World) : World :=
  {| vault := vault w; leaves := leaves w; next_leaf := next_leaf w;
     session := session w; trace := trace w ++ evs |}.

(** *** The folder menu

    [onload] registers one handler of the [file-menu] event of the
    workspace.  A menu is the list of its items; [menu.addItem(cb)] appends
    the item that [cb] configures. *)
Inductive TAbstractFile := AFile (f : TFile) | AFolder (folder : TFolder).

Record MenuItem := {
  item_title : string;
  item_icon : string;
  item_onClick : M unit
}.

Definition newMenuItem : MenuItem :=
  {| item_title := EmptyString; item_icon := EmptyString; item_onClick := ret tt |}.

Definition setTitle (t : string) (item : MenuItem) : MenuItem :=
  {| item_title := t; item_icon := item_icon item; item_onClick := item_onClick item |}.

Definition setIcon (i : string) (item : MenuItem) : MenuItem :=
  {| item_title := item_title item; item_icon := i; item_onClick := item_onClick item |}.

Definition onClick (action : M unit) (item : MenuItem) : MenuItem :=
  {| item_title := item_title item; item_icon := item_icon item; item_onClick := action |}.

Definition addItem (cb : MenuItem -> MenuItem) (menu : list MenuItem) : list MenuItem :=
  menu ++ [cb newMenuItem].

(** The handler registered by [onload]: [file instanceof TFolder] is the
    constructor [AFolder]. *)
Definition onFileMenu (menu : list MenuItem) (file : TAbstractFile) : list MenuItem :=
  match file with
  | AFile _ => menu
  | AFolder folder =>
      let menu :=
        addItem (fun item =>
                   onClick (processEncryptFolder folder)
                     (setIcon "folder-lock" (setTitle "Encrypt folder" item))) menu in
      addItem (fun item =>
                 onClick (processDecryptFolder folder)
                   (setIcon "folder-lock-open" (setTitle "Decrypt folder" item))) menu
  end.

(** *** Further notions used in the statements *)

Definition isPasswordModal (e : Event) : Prop :=
  match e with EvPasswordModal _ _ _ _ => True | _ => False end.

(** The session cache with one more password. *)
Definition remember (p : string) (pw : PasswordAndHint) (s : SessionPasswordService) :
    SessionPasswordService :=
  {| level := level s; entries := <[p := pw]> (entries s) |}.

(** Two worlds that differ by their traces only. *)
Definition sameState (w w' : World) : Prop :=
  vault w' = vault w /\ leaves w' = leaves w /\ next_leaf w' = next_leaf w /\
  session w' = session w.

(** [touchesOnly files pwh w w']: from [w] to [w'] the vault keeps its
    size, the files outside [files] keep their path and content, the level of
    the session cache is kept, and every answer of the cache is the one of
    [w] or the password [pwh]. *)
Definition touchesOnly (files : list TFile) (pwh : PasswordAndHint) (w w' : World) : Prop :=
  length (vault w') = length (vault w) /\
  (forall f, ~ In f files -> vault w' !! f = vault w !! f) /\
  level (session w') = level (session w) /\
  (forall p, entries (session w') !! p = entries (session w) !! p \/
             entries (session w') !! p = Some pwh).

(** [inFootprint files pwh e]: the call [e] is one a batch over [files] with
    the password [pwh] may make once the password is resolved: a storage
    call or a reopening on a file of [files], a cache write of [pwh] for a
    file of [files], a detach or a console error; no cache lookup, no prompt
    and no notice. *)
Definition inFootprint (files : list TFile) (pwh : PasswordAndHint) (e : Event) : Prop :=
  match e with
  | EvRead f | EvRenameFile f _ | EvModify f _ | EvOpenFile _ f => In f files
  | EvPutByFile pw f => pw = pwh /\ In f files
  | EvDetachSafely _ | EvDetach _ | EvConsoleError _ _ _ => True
  | EvGetByPath _ | EvPasswordModal _ _ _ _ | EvNotice _ => False
  end.

(** *** The runs of the loop

    [BatchRun msg body files w ok fail w']: starting in [w], the steps
    [body file] are run for the files of [files], in order, each in the world
    its predecessor left; [ok] steps returned and [fail] steps threw, each
    thrown error being logged on the console before the next step; [w'] is
    the world after the last step. *)
Inductive BatchRun (msg : string) (body : TFile -> M unit) :
    list TFile -> World -> nat -> nat -> World -> Prop :=
| BatchRun_done (w : World) : BatchRun msg body [] w 0 0 w
| BatchRun_ok (file : TFile) (rest : list TFile) (w w1 : World) (ok fail : nat)
    (w' : World) :
    body file w = (Ok tt, w1) ->
    BatchRun msg body rest w1 ok fail w' ->
    BatchRun msg body (file :: rest) w (S ok) fail w'
| BatchRun_fail (file : TFile) (rest : list TFile) (w : World) (e : Exn) (w1 : World)
    (ok fail : nat) (w' : World) :
    body file w = (Throw e, w1) ->
    BatchRun msg body rest (log (EvConsoleError msg (path (tfile w1 file)) e) w1)
      ok fail w' ->
    BatchRun msg body (file :: rest) w ok (S fail) w'.

End FeatureFolderEncrypt.

(** ** A small vault to run the feature on *)

Module Demo.

(** A toy cipher: the envelope is the password, a colon and the text. *)
Definition seal (pw text : string) : string := pw +:+ ":" +:+ text.

Definition unseal (env pw : string) : option string :=
  if String.prefix (pw +:+ ":") env
  then Some (String.substring (S (String.length pw)) (String.length env) env)
  else None.

(** The host fails to write the files of [badWrites], to read those of
    [badReads], and the user types [typed] in the modal ([None]: the user
    dismisses it). *)
Definition host (badReads badWrites : list TFile) (typed : option PasswordAndHint) : Host :=
  {| Envelope := string;
     read_fault := fun _ f => if bool_decide (f ∈ badReads) then Some "EIO" else None;
     renameFile_fault := fun _ _ _ => None;
     modify_fault := fun _ f _ => if bool_decide (f ∈ badWrites) then Some "EIO" else None;
     openFile_fault := fun _ _ => None;
     viewClassFor := fun ext => if String.eqb ext "md" then TextFileView
                                else EncryptedMarkdownView;
     FileDataHelper_encrypt := fun _ pw _ text => Ok (seal pw text);
     FileDataHelper_decrypt := fun _ env pw => Ok (unseal env pw);
     JsonFileEncoding_encode := fun env => "{" +:+ env;
     JsonFileEncoding_decode := fun s =>
       match s with
       | String c rest => if bool_decide (c = Ascii.ascii_of_nat 123) then Ok rest
                          else Throw "SyntaxError"
       | EmptyString => Throw "SyntaxError"
       end;
     PluginPasswordModal_openAsync := fun _ _ _ _ _ =>
       match typed with Some p => Ok p | None => Throw "cancelled" end;
     ENCRYPTED_FILE_EXTENSIONS := ["mdenc"; "encrypted"];
     ENCRYPTED_FILE_EXTENSION_DEFAULT := "mdenc" |}.

Definition pw : PasswordAndHint := {| password := "pw"; hint := "h" |}.

Definition notes : TFolder := {| folder_path := "notes"; folder_name := "notes" |}.

Definition attic : TFolder := {| folder_path := "attic"; folder_name := "attic" |}.

(** The user types the password; the host fails no call. *)
Definition typing : Host := host [] [] (Some pw).

(** The user dismisses the modal. *)
Definition dismissing : Host := host [] [] None.

(** The host fails to write [notes/b.md], the file of index 1. *)
Definition failing : Host := host [] [1] (Some pw).

Definition world : World :=
  {| vault := [ {| path := "notes/a.md"; data := "alpha" |};
                {| path := "notes/b.md"; data := "beta" |};
                {| path := "notes/sub/c.md"; data := "gamma" |};
                {| path := "notes/pic.png"; data := "png" |};
                {| path := "notes2/d.md"; data := "delta" |};
                {| path := "notes/e.mdenc"; data := "{pw:epsilon" |};
                {| path := "notes/f.encrypted"; data := "garbage" |};
                {| path := "notes/g.mdenc"; data := "{other:eta" |} ];
     leaves := [ {| leaf_id := 1; view_class := TextFileView; view_file := Some 1 |};
                 {| leaf_id := 2; view_class := OtherView; view_file := Some 1 |};
                 {| leaf_id := 3; view_class := EncryptedMarkdownView; view_file := Some 5 |} ];
     next_leaf := 4;
     session := {| level := LevelOther "vault"; entries := ∅ |};
     trace := [] |}.

(** The world after the update of a file to the content [sealed]. *)
Definition updated (h : Host) (file : TFile) : World :=
  snd (closeUpdateRememberPasswordThenReopen h file "mdenc" "sealed" pw world).

(** The leaf of [world] that holds a view on the file 1 that is not a text
    view. *)
Definition preview : WorkspaceLeaf :=
  {| leaf_id := 2; view_class := OtherView; view_file := Some 1 |}.

(** The user types a password that opens none of the encrypted files. *)
Definition mistyping : Host := host [] [] (Some {| password := "nope"; hint := "h" |}).

(** The host of [typing], but no file can be opened in a view. *)
Definition blind : Host :=
  {| Envelope := Envelope typing;
     read_fault := read_fault typing;
     renameFile_fault := renameFile_fault typing;
     modify_fault := modify_fault typing;
     openFile_fault := fun _ _ => Some "EOPEN";
     viewClassFor := viewClassFor typing;
     FileDataHelper_encrypt := FileDataHelper_encrypt typing;
     FileDataHelper_decrypt := FileDataHelper_decrypt typing;
     JsonFileEncoding_encode := JsonFileEncoding_encode typing;
     JsonFileEncoding_decode := JsonFileEncoding_decode typing;
     PluginPasswordModal_openAsync := PluginPasswordModal_openAsync typing;
     ENCRYPTED_FILE_EXTENSIONS := ENCRYPTED_FILE_EXTENSIONS typing;
     ENCRYPTED_FILE_EXTENSION_DEFAULT := ENCRYPTED_FILE_EXTENSION_DEFAULT typing |}.

(** The small vault at the level [ExternalFile], with nothing cached. *)
Definition external : World :=
  set_session {| level := LevelExternalFile; entries := ∅ |} world.

Definition sub : TFolder := {| folder_path := "notes/sub"; folder_name := "sub" |}.

End Demo.

(** * Properties *)

(** ** Strings *)

Lemma append_nil (t : string) : EmptyString +:+ t = t.
Proof. reflexivity. Qed.

Lemma append_cons (a : ascii) (s t : string) : String a s +:+ t = String a (s +:+ t).
Proof. reflexivity. Qed.

Lemma prefix_spec (p s : string) :
  String.prefix p s = true <-> exists r, s = p +:+ r.
Proof.
  revert s. induction p as [|a p IH]; intros s; simpl.
  - split; [intros _; exists s; reflexivity | intros _; destruct s; reflexivity].
  - destruct s as [|b s]; simpl.
    + split; [discriminate | intros [r Hr]; discriminate].
    + destruct (Ascii.ascii_dec a b) as [->|Hne].
      * rewrite IH. split; intros [r Hr]; exists r; rewrite append_cons in *; congruence.
      * split; [discriminate | intros [r Hr]; rewrite append_cons in Hr; congruence].
Qed.

Lemma has_char_app (c : ascii) (s t : string) :
  has_char c (s +:+ t) = has_char c s || has_char c t.
Proof.
  induction s as [|a s IH]; [reflexivity|].
  rewrite append_cons. simpl.
  destruct (decide (a = c)); [reflexivity | exact IH].
Qed.

Lemma split_last_None (c : ascii) (s : string) :
  split_last c s = None <-> has_char c s = false.
Proof.
  induction s as [|a s IH]; simpl; [tauto|].
  destruct (split_last c s) as [[l r]|].
  - destruct (decide (a = c)); split; try discriminate.
    intros H. apply IH in H. discriminate.
  - destruct (decide (a = c)); split; try discriminate; tauto.
Qed.

Lemma split_last_Some (c : ascii) (s l r : string) :
  split_last c s = Some (l, r) -> s = l +:+ String c r /\ has_char c r = false.
Proof.
  revert l. induction s as [|a s IH]; intros l; simpl; [discriminate|].
  destruct (split_last c s) as [[l' r']|] eqn:E.
  - intros [= <- <-]. destruct (IH l' eq_refl) as [-> Hr]. split; [reflexivity | exact Hr].
  - destruct (decide (a = c)) as [->|]; [|discriminate].
    intros [= <- <-]. split; [reflexivity | apply split_last_None, E].
Qed.

Lemma split_last_app (c : ascii) (l r : string) :
  has_char c r = false -> split_last c (l +:+ String c r) = Some (l, r).
Proof.
  intros Hr. induction l as [|a l IH].
  - rewrite append_nil. simpl. apply split_last_None in Hr. rewrite Hr.
    rewrite decide_True by reflexivity. reflexivity.
  - rewrite append_cons. simpl. rewrite IH. reflexivity.
Qed.

Lemma append_assoc (s t u : string) : (s +:+ t) +:+ u = s +:+ (t +:+ u).
Proof.
  induction s as [|a s IH]; [reflexivity|].
  rewrite !append_cons, IH. reflexivity.
Qed.

Lemma name_of_no_slash (p : string) : has_char slash (name_of p) = false.
Proof.
  unfold name_of. destruct (split_last slash p) as [[d n]|] eqn:E.
  - apply split_last_Some in E. tauto.
  - apply split_last_None, E.
Qed.

Lemma basename_of_no_slash (p : string) : has_char slash (basename_of p) = false.
Proof.
  unfold basename_of. pose proof (name_of_no_slash p) as Hn.
  destruct (split_last dot (name_of p)) as [[b e]|] eqn:E; [|exact Hn].
  apply split_last_Some in E. destruct E as [E _]. rewrite E in Hn.
  rewrite has_char_app in Hn. apply orb_false_iff in Hn. tauto.
Qed.

(** The path with a new extension, spelled with the two separators. *)
Lemma getFilePathWithNewExtension_eq (o : TFileObj) (ext : string) :
  getFilePathWithNewExtension o ext =
  match split_last slash (path o) with
  | Some (d, _) => d +:+ String slash (basename_of (path o) +:+ String dot ext)
  | None => basename_of (path o) +:+ String dot ext
  end.
Proof.
  unfold getFilePathWithNewExtension.
  destruct (split_last slash (path o)) as [[d n]|]; [|reflexivity].
  rewrite append_assoc. reflexivity.
Qed.

Lemma stem_no_slash (o : TFileObj) (ext : string) :
  has_char slash ext = false ->
  has_char slash (basename_of (path o) +:+ String dot ext) = false.
Proof.
  intros Hslash. rewrite has_char_app, basename_of_no_slash. simpl. exact Hslash.
Qed.

(** The path computed for a new extension keeps the directory and the base
    name, and carries the new extension, when the extension has neither a
    dot nor a slash. *)
Lemma getFilePathWithNewExtension_parts (o : TFileObj) (ext : string) :
  has_char dot ext = false -> has_char slash ext = false ->
  let p := getFilePathWithNewExtension o ext in
  parent_of p = parent_of (path o) /\
  basename_of p = basename_of (path o) /\
  extension_of p = ext.
Proof.
  intros Hdot Hslash p.
  pose proof (stem_no_slash o ext Hslash) as Hstem.
  assert (Hsplit : name_of p = basename_of (path o) +:+ String dot ext /\
                   parent_of p = parent_of (path o)).
  { unfold p, name_of at 1, parent_of. rewrite getFilePathWithNewExtension_eq.
    destruct (split_last slash (path o)) as [[d n]|] eqn:E.
    - rewrite split_last_app by exact Hstem. split; reflexivity.
    - apply split_last_None in Hstem. rewrite Hstem. split; reflexivity. }
  destruct Hsplit as [Hname Hparent].
  split; [exact Hparent|split].
  - unfold basename_of at 1. rewrite Hname, split_last_app by exact Hdot. reflexivity.
  - unfold extension_of. rewrite Hname, split_last_app by exact Hdot. reflexivity.
Qed.

(** ** Traces *)

Lemma notices_app (a b : list Event) : notices (a ++ b) = notices a ++ notices b.
Proof. apply omap_app. Qed.

Lemma reads_app (a b : list Event) : reads (a ++ b) = reads a ++ reads b.
Proof. apply omap_app. Qed.

Lemma consoleErrors_app (a b : list Event) :
  consoleErrors (a ++ b) = consoleErrors a ++ consoleErrors b.
Proof. apply omap_app. Qed.

Lemma quiet_silent (evs : list Event) :
  Forall quiet evs -> notices evs = [] /\ reads evs = [] /\ consoleErrors evs = [].
Proof.
  induction 1 as [|e evs He _ IH]; [repeat split|].
  destruct IH as (IH1 & IH2 & IH3).
  destruct e; simpl in He; try contradiction; repeat split; simpl; assumption.
Qed.

Lemma detachEvent_quiet (l : WorkspaceLeaf) : quiet (detachEvent l).
Proof. unfold detachEvent. destruct (instanceofEncryptedMarkdownView _); exact I. Qed.

Lemma detachEvent_not_mutation (l : WorkspaceLeaf) : ~ isMutation (detachEvent l).
Proof. unfold detachEvent. destruct (instanceofEncryptedMarkdownView _); intros []. Qed.

Lemma detachEvent_not_open (l : WorkspaceLeaf) : ~ isOpenFile (detachEvent l).
Proof. unfold detachEvent. destruct (instanceofEncryptedMarkdownView _); intros []. Qed.

Lemma detachEvents_In (file : TFile) (ls : list WorkspaceLeaf) (l : WorkspaceLeaf) :
  In l ls -> showsFile file l = true -> In (detachEvent l) (detachEvents file ls).
Proof.
  intros Hin Hshow. unfold detachEvents. apply in_map, filter_In. split; assumption.
Qed.

Lemma detachEvents_Forall (P : Event -> Prop) (file : TFile) (ls : list WorkspaceLeaf) :
  (forall l, P (detachEvent l)) -> Forall P (detachEvents file ls).
Proof.
  intros HP. unfold detachEvents. apply List.Forall_forall. intros e He.
  apply in_map_iff in He. destruct He as (l & <- & _). apply HP.
Qed.

(** Splitting a list at an element that its first part cannot hold. *)
Lemma split_after_prefix (P : Event -> Prop) (d rest pre post : list Event) (e : Event) :
  Forall (fun x => ~ P x) d -> P e ->
  d ++ rest = pre ++ e :: post ->
  exists pre', pre = d ++ pre' /\ rest = pre' ++ e :: post.
Proof.
  revert pre. induction d as [|x d IH]; intros pre Hd He Heq.
  - exists pre. split; [reflexivity | exact Heq].
  - inversion Hd as [|? ? Hx Hd']; subst.
    destruct pre as [|y pre]; simpl in Heq.
    + injection Heq as -> _. contradiction.
    + injection Heq as -> Heq. destruct (IH pre Hd' He Heq) as (pre' & -> & Hrest).
      exists pre'. split; [reflexivity | exact Hrest].
Qed.

Section Properties.

Variable host : Host.

(** ** The detaching phase *)

Lemma iterateAllLeaves_detach (file : TFile) (ls : list WorkspaceLeaf) (acc : bool)
    (w : World) :
  iterateAllLeaves (detachCallback file) ls acc w =
  (Ok (acc || existsb (showsFile file) ls), afterDetach file ls w).
Proof.
  revert acc w. induction ls as [|l ls IH]; intros acc w.
  - unfold afterDetach, detachAll, detachEvents. simpl.
    rewrite orb_false_r, app_nil_r. destruct w; reflexivity.
  - simpl. unfold bind, detachCallback.
    destruct (showsFile file l) eqn:Hshow.
    + assert (Hstep : forall w1,
        w1 = log (detachEvent l) (set_leaves (without_leaf (leaf_id l) (leaves w)) w) ->
        iterateAllLeaves (detachCallback file) ls true w1 =
        (Ok (acc || true), afterDetach file (l :: ls) w)).
      { intros w1 ->. rewrite IH, orb_true_r. simpl. f_equal.
        unfold afterDetach, detachAll, detachEvents. simpl. rewrite Hshow. simpl.
        rewrite <- app_assoc. reflexivity. }
      unfold detachEvent in Hstep.
      destruct (instanceofEncryptedMarkdownView (view_class l));
        unfold detachSafely, detach, ret; apply Hstep; reflexivity.
    + unfold ret. rewrite IH. f_equal.
      unfold afterDetach, detachAll, detachEvents. simpl. rewrite Hshow. reflexivity.
Qed.

Lemma detachAll_In (file : TFile) (ls base : list WorkspaceLeaf) (x : WorkspaceLeaf) :
  In x (detachAll file ls base) ->
  In x base /\
  forall l, In l ls -> showsFile file l = true -> leaf_id x <> leaf_id l.
Proof.
  unfold detachAll. revert base. induction ls as [|l ls IH]; intros base Hin; simpl in *.
  - split; [exact Hin | intros l []].
  - destruct (showsFile file l) eqn:Hshow; simpl in Hin.
    + apply IH in Hin. destruct Hin as [Hin Hrest].
      unfold without_leaf in Hin. apply filter_In in Hin. destruct Hin as [Hin Hid].
      split; [exact Hin|]. intros l' [<-|Hl'] Hs.
      * apply negb_true_iff, Nat.eqb_neq in Hid. exact Hid.
      * apply Hrest; assumption.
    + apply IH in Hin. destruct Hin as [Hin Hrest].
      split; [exact Hin|]. intros l' [<-|Hl'] Hs; [congruence|].
      apply Hrest; assumption.
Qed.

(** Once the leaves showing the file are detached, no leaf of the workspace
    shows it in a text view. *)
Lemma afterDetach_clean (file : TFile) (w : World) (x : WorkspaceLeaf) :
  In x (leaves (afterDetach file (leaves w) w)) -> showsFile file x = false.
Proof.
  simpl. intros Hin. apply detachAll_In in Hin. destruct Hin as [Hin Hids].
  destruct (showsFile file x) eqn:Hshow; [|reflexivity].
  exfalso. exact (Hids x Hin Hshow eq_refl).
Qed.

Lemma closeUpdate_phases (file : TFile) (ext content : string) (pw : PasswordAndHint)
    (w : World) :
  closeUpdateRememberPasswordThenReopen host file ext content pw w =
  tryFinally (updateFile host file ext content pw)
    (reopenIfDetached host (existsb (showsFile file) (leaves w)) file)
    (afterDetach file (leaves w) w).
Proof.
  unfold closeUpdateRememberPasswordThenReopen, bind at 1, gets at 1.
  unfold bind at 1. rewrite iterateAllLeaves_detach. reflexivity.
Qed.

(** ** The storage calls *)

Lemma renameFile_Ok (f : TFile) (p : string) (w w' : World) :
  renameFile host f p w = (Ok tt, w') ->
  exists o, vault w !! f = Some o /\
    w' = set_vault (<[f := {| path := p; data := data o |}]> (vault w))
           (log (EvRenameFile f p) w).
Proof.
  unfold renameFile. destruct (vault w !! f) as [o|]; [|discriminate].
  destruct (renameFile_fault host w f p); [discriminate|].
  intros [= <-]. exists o. split; reflexivity.
Qed.

Lemma renameFile_Throw (f : TFile) (p : string) (e : Exn) (w w' : World) :
  renameFile host f p w = (Throw e, w') -> w' = log (EvRenameFile f p) w.
Proof.
  unfold renameFile. destruct (vault w !! f) as [o|]; [|congruence].
  destruct (renameFile_fault host w f p); congruence.
Qed.

Lemma modify_Ok (f : TFile) (c : string) (w w' : World) :
  modify host f c w = (Ok tt, w') ->
  exists o, vault w !! f = Some o /\
    w' = set_vault (<[f := {| path := path o; data := c |}]> (vault w))
           (log (EvModify f c) w).
Proof.
  unfold modify. destruct (vault w !! f) as [o|]; [|discriminate].
  destruct (modify_fault host w f c); [discriminate|].
  intros [= <-]. exists o. split; reflexivity.
Qed.

Lemma modify_Throw (f : TFile) (c : string) (e : Exn) (w w' : World) :
  modify host f c w = (Throw e, w') -> w' = log (EvModify f c) w.
Proof.
  unfold modify. destruct (vault w !! f) as [o|]; [|congruence].
  destruct (modify_fault host w f c); congruence.
Qed.

(** The guarded block, by the first call that fails. *)
Lemma updateFile_cases (file : TFile) (ext content : string) (pw : PasswordAndHint)
    (w : World) (r : Result unit) (w' : World) :
  updateFile host file ext content pw w = (r, w') ->
  let np := getFilePathWithNewExtension (tfile w file) ext in
  (exists e, r = Throw e /\ w' = log (EvRenameFile file np) w) \/
  (exists e o w1,
      renameFile host file np w = (Ok tt, w1) /\ modify host file content w1 = (Throw e, w') /\
      vault w !! file = Some o /\ r = Throw e /\
      w' = log (EvModify file content)
             (set_vault (<[file := {| path := np; data := data o |}]> (vault w))
                (log (EvRenameFile file np) w))) \/
  (exists o,
      vault w !! file = Some o /\ r = Ok tt /\
      w' = {| vault := <[file := {| path := np; data := content |}]> (vault w);
              leaves := leaves w;
              next_leaf := next_leaf w;
              session := {| level := level (session w);
                            entries := <[np := pw]> (entries (session w)) |};
              trace := trace w ++ [EvRenameFile file np; EvModify file content;
                                   EvPutByFile pw file] |}).
Proof.
  intros Hrun np. unfold updateFile, bind, gets in Hrun. fold np in Hrun.
  destruct (renameFile host file np w) as [[[]|e] w1] eqn:Hren.
  - destruct (renameFile_Ok _ _ _ _ Hren) as (o & Ho & ->).
    destruct (modify host file content _) as [[[]|e] w2] eqn:Hmod.
    + right; right. exists o. split; [exact Ho|].
      destruct (modify_Ok _ _ _ _ Hmod) as (o' & Ho' & ->).
      simpl in Ho'. rewrite list_lookup_insert_eq in Ho' by (eapply lookup_lt_Some, Ho).
      injection Ho' as <-. simpl in Hrun. unfold putByFile in Hrun.
      injection Hrun as <- <-. split; [reflexivity|].
      unfold tfile, log, set_session, set_vault. simpl.
      rewrite list_insert_insert_eq.
      rewrite list_lookup_insert_eq
        by (rewrite ?length_insert; eapply lookup_lt_Some, Ho).
      simpl. rewrite <- !app_assoc. reflexivity.
    + right; left. injection Hrun as <- <-. eexists e, o, _.
      split; [reflexivity|]. split; [first [exact Hmod | reflexivity]|]. split; [exact Ho|].
      split; [reflexivity|]. apply modify_Throw in Hmod. exact Hmod.
  - left. injection Hrun as <- <-. exists e. split; [reflexivity|].
    eapply renameFile_Throw, Hren.
Qed.

(** The calls of the guarded block, and what it leaves untouched. *)
Lemma updateFile_calls (file : TFile) (ext content : string) (pw : PasswordAndHint)
    (w : World) (r : Result unit) (w' : World) :
  updateFile host file ext content pw w = (r, w') ->
  leaves w' = leaves w /\ next_leaf w' = next_leaf w /\
  length (vault w') = length (vault w) /\
  exists calls,
    trace w' = trace w ++ calls /\
    updateCalls file (getFilePathWithNewExtension (tfile w file) ext) content pw calls.
Proof.
  intros Hrun. apply updateFile_cases in Hrun.
  destruct Hrun as [(e & -> & ->)|[(e & o & w1 & _ & _ & Ho & -> & ->)|(o & Ho & -> & ->)]];
    simpl; rewrite ?length_insert; repeat split.
  - eexists. split; [reflexivity|]. left. reflexivity.
  - eexists. split; [rewrite <- app_assoc; reflexivity|]. right; left. reflexivity.
  - eexists. split; [reflexivity|]. right; right. reflexivity.
Qed.

(** The [finally] block. *)
Lemma reopenIfDetached_run (d : bool) (file : TFile) (w : World) (r : Result unit)
    (w' : World) :
  reopenIfDetached host d file w = (r, w') ->
  vault w' = vault w /\ session w' = session w /\
  trace w' = trace w ++ reopenCalls d file w /\
  (d = false -> r = Ok tt /\ leaves w' = leaves w) /\
  (d = true ->
     (r = Ok tt ->
        exists l, In l (leaves w') /\ leaf_id l = next_leaf w /\ view_file l = Some file) /\
     (forall e, r = Throw e ->
        vault w !! file = None \/ exists w0, openFile_fault host w0 file = Some e)).
Proof.
  unfold reopenIfDetached, reopenCalls. destruct d.
  - unfold bind, getLeaf, openFile. simpl.
    destruct (vault w !! file) as [o|] eqn:Ho.
    + destruct (openFile_fault host _ file) as [e|] eqn:Hf; intros [= <- <-]; simpl.
      * split; [reflexivity|]. split; [reflexivity|]. split; [reflexivity|].
        split; [discriminate|]. intros _. split; [discriminate|].
        intros e' [= <-]. right. eexists. exact Hf.
      * split; [reflexivity|]. split; [reflexivity|]. split; [reflexivity|].
        split; [discriminate|]. intros _. split; [|discriminate].
        intros _.
        exists {| leaf_id := next_leaf w;
                  view_class := viewClassFor host (extension o);
                  view_file := Some file |}.
        split; [|split; reflexivity].
        rewrite map_app. apply in_or_app. right. simpl.
        rewrite Nat.eqb_refl. left. reflexivity.
    + intros [= <- <-]; simpl.
      split; [reflexivity|]. split; [reflexivity|]. split; [reflexivity|].
      split; [discriminate|]. intros _. split; [discriminate|].
      intros e' _. left. reflexivity.
  - unfold ret. intros [= <- <-]. rewrite app_nil_r.
    split; [reflexivity|]. split; [reflexivity|]. split; [reflexivity|].
    split; [intros _; split; reflexivity | discriminate].
Qed.

(** ** One file: the calls of [closeUpdateRememberPasswordThenReopen] *)

Lemma showsFile_view (file : TFile) (l : WorkspaceLeaf) :
  showsFile file l = true -> view_file l = Some file.
Proof.
  unfold showsFile. intros H. apply andb_true_iff in H. destruct H as [_ H].
  apply bool_decide_eq_true in H. exact H.
Qed.

Lemma existsb_showsFile (file : TFile) (ls : list WorkspaceLeaf) :
  existsb (showsFile file) ls = true <-> exists l, In l ls /\ showsFile file l = true.
Proof. apply existsb_exists. Qed.

Lemma closeUpdate_calls (file : TFile) (ext content : string) (pw : PasswordAndHint)
    (w : World) (r : Result unit) (w' : World) :
  closeUpdateRememberPasswordThenReopen host file ext content pw w = (r, w') ->
  exists calls,
    trace w' =
      trace w ++ detachEvents file (leaves w) ++ calls ++
      reopenCalls (existsb (showsFile file) (leaves w)) file w /\
    updateCalls file (getFilePathWithNewExtension (tfile w file) ext) content pw calls.
Proof.
  rewrite closeUpdate_phases. unfold tryFinally.
  destruct (updateFile host file ext content pw _) as [r1 w1] eqn:Hupd.
  destruct (reopenIfDetached host _ file w1) as [r2 w2] eqn:Hfin.
  intros Hrun.
  assert (Hw' : w' = w2) by (destruct r2; congruence). subst w'.
  apply updateFile_calls in Hupd. destruct Hupd as (_ & Hnext & _ & calls & Htr & Hcalls).
  apply reopenIfDetached_run in Hfin. destruct Hfin as (_ & _ & Htr2 & _).
  exists calls. split; [|exact Hcalls].
  rewrite Htr2, Htr. simpl. unfold reopenCalls. rewrite Hnext. simpl.
  rewrite <- !app_assoc. reflexivity.
Qed.

Lemma updateCalls_Forall (P : Event -> Prop) (file : TFile) (np content : string)
    (pw : PasswordAndHint) (calls : list Event) :
  P (EvRenameFile file np) -> P (EvModify file content) -> P (EvPutByFile pw file) ->
  updateCalls file np content pw calls -> Forall P calls.
Proof.
  intros H1 H2 H3 [-> | [-> | ->]]; repeat constructor; assumption.
Qed.

Lemma run_eta {A} (m : M A) (w : World) : m w = (fst (m w), snd (m w)).
Proof. destruct (m w); reflexivity. Qed.

(** ** C4: the file is reopened exactly when a view was detached *)

(** C4.  In every run of [closeUpdateRememberPasswordThenReopen], whatever
    its outcome [r] (a success or a thrown error): when a view on the file
    was detached, the last call of the run opens the file in a leaf created
    by the run, no other call opens a file, and, unless that call itself
    fails, the workspace ends with this leaf showing the file; when no
    leaf of the workspace holds a view on the file, the run opens no
    file. *)
Theorem reopen_iff_detached (file : TFile) (ext content : string) (pw : PasswordAndHint)
    (w : World) (r : Result unit) (w' : World) :
  closeUpdateRememberPasswordThenReopen host file ext content pw w = (r, w') ->
  ((exists l, In l (leaves w) /\ showsFile file l = true) ->
     (exists calls,
        trace w' = trace w ++ calls ++ [EvOpenFile (next_leaf w) file] /\
        Forall (fun e => ~ isOpenFile e) calls) /\
     ((forall w0, openFile_fault host w0 file = None) -> file < length (vault w) ->
        exists l, In l (leaves w') /\ leaf_id l = next_leaf w /\ view_file l = Some file)) /\
  ((forall l, In l (leaves w) -> view_file l <> Some file) ->
     exists calls,
       trace w' = trace w ++ calls /\ Forall (fun e => ~ isOpenFile e) calls).
Proof.
  intros Hrun.
  destruct (closeUpdate_calls _ _ _ _ _ _ _ Hrun) as (calls & Htr & Hcalls).
  assert (Hquiet : Forall (fun e => ~ isOpenFile e) (detachEvents file (leaves w) ++ calls)).
  { apply Forall_app. split.
    - apply detachEvents_Forall. apply detachEvent_not_open.
    - eapply updateCalls_Forall; [| | |exact Hcalls]; intros []. }
  split.
  - intros Hshown. apply existsb_showsFile in Hshown.
    rewrite Hshown in Htr. split.
    + exists (detachEvents file (leaves w) ++ calls). split; [|exact Hquiet].
      rewrite Htr. unfold reopenCalls. rewrite <- !app_assoc. reflexivity.
    + intros Hnofault Hfile.
      rewrite closeUpdate_phases in Hrun. unfold tryFinally in Hrun.
      destruct (updateFile host file ext content pw _) as [r1 w1] eqn:Hupd.
      destruct (reopenIfDetached host _ file w1) as [r2 w2] eqn:Hfin.
      rewrite Hshown in Hfin.
      apply updateFile_calls in Hupd. destruct Hupd as (_ & Hnext & Hlen & _).
      apply reopenIfDetached_run in Hfin.
      destruct Hfin as (_ & _ & _ & _ & Hd). destruct (Hd eq_refl) as [Hok Hthrow].
      destruct r2 as [[]|e].
      * injection Hrun as _ <-. rewrite Hnext in Hok. exact (Hok eq_refl).
      * exfalso. destruct (Hthrow e eq_refl) as [Hnone|[w0 Hw0]].
        -- apply lookup_ge_None in Hnone. rewrite Hlen in Hnone. simpl in Hnone. lia.
        -- rewrite Hnofault in Hw0. discriminate.
  - intros Hnone.
    assert (Hshown : existsb (showsFile file) (leaves w) = false).
    { apply not_true_iff_false. intros H. apply existsb_showsFile in H.
      destruct H as (l & Hl & Hs). exact (Hnone l Hl (showsFile_view _ _ Hs)). }
    rewrite Hshown in Htr. exists (detachEvents file (leaves w) ++ calls).
    split; [|exact Hquiet].
    rewrite Htr. unfold reopenCalls. rewrite app_nil_r, ?app_assoc. reflexivity.
Qed.

(** ** C5: detach, then rename, then write *)

Lemma reopenCalls_not_mutation (d : bool) (file : TFile) (w : World) :
  Forall (fun e => ~ isMutation e) (reopenCalls d file w).
Proof. unfold reopenCalls. destruct d; repeat constructor. intros []. Qed.

Lemma updateCalls_head (file : TFile) (np content : string) (pw : PasswordAndHint)
    (calls : list Event) :
  updateCalls file np content pw calls ->
  exists tail, calls = EvRenameFile file np :: tail.
Proof. intros [-> | [-> | ->]]; eexists; reflexivity. Qed.

(** A mutation found in [calls ++ last], where [last] holds no mutation,
    lies in [calls], with everything before it. *)
Lemma mutation_in_calls (calls last pre post : list Event) (e : Event) :
  Forall (fun x => ~ isMutation x) last -> isMutation e ->
  calls ++ last = pre ++ e :: post ->
  exists rest, calls = pre ++ e :: rest.
Proof.
  intros Hlast He Heq. apply app_eq_app in Heq.
  destruct Heq as [l [[-> Hl]|[-> Hl]]].
  - destruct l as [|x l].
    + simpl in Hl. subst last. inversion Hlast; subst. contradiction.
    + injection Hl as <- ->. eexists. reflexivity.
  - exfalso. subst last. apply Forall_app in Hlast. destruct Hlast as [_ Hlast].
    inversion Hlast; subst. contradiction.
Qed.


(** ** C6 and C10: the file and the cache after the run *)

Lemma closeUpdate_Ok (file : TFile) (ext content : string) (pw : PasswordAndHint)
    (w w' : World) :
  closeUpdateRememberPasswordThenReopen host file ext content pw w = (Ok tt, w') ->
  exists o,
    vault w !! file = Some o /\
    vault w' = <[file := {| path := getFilePathWithNewExtension o ext; data := content |}]>
                 (vault w) /\
    session w' = {| level := level (session w);
                    entries := <[getFilePathWithNewExtension o ext := pw]>
                                 (entries (session w)) |}.
Proof.
  rewrite closeUpdate_phases. unfold tryFinally.
  destruct (updateFile host file ext content pw _) as [r1 w1] eqn:Hupd.
  destruct (reopenIfDetached host _ file w1) as [r2 w2] eqn:Hfin.
  destruct r2 as [[]|e2]; [|discriminate]. intros [= -> ->].
  apply reopenIfDetached_run in Hfin. destruct Hfin as (Hv & Hs & _).
  apply updateFile_cases in Hupd.
  destruct Hupd as [(e & He & _)|[(e & o & w0 & _ & _ & _ & He & _)|(o & Ho & _ & ->)]];
    try discriminate.
  simpl in Ho. exists o. split; [exact Ho|].
  rewrite Hv, Hs. unfold tfile. simpl. rewrite Ho. simpl. split; reflexivity.
Qed.

Lemma getByPath_put (s : SessionPasswordService) (p : string) (pw : PasswordAndHint) :
  getByPath {| level := level s; entries := <[p := pw]> (entries s) |} p = pw.
Proof. unfold getByPath. simpl. rewrite lookup_insert_eq. reflexivity. Qed.

(** C6.  When the transform of a file fully succeeds (the step of the batch
    returns without an error), the file is at the path of its old directory
    and base name with the new extension, its content is the encoded
    envelope of its old content (encrypting) or the plaintext decrypted from
    it (decrypting), and the session cache answers the batch password for
    the new path.  The directory, base name and extension of the new path
    are read back from it when the new extension holds no dot and no
    slash. *)
Theorem transformed_file (pwh : PasswordAndHint) (file : TFile) :
  (forall w w',
     encryptOne host pwh file w = (Ok tt, w') ->
     exists o envelope,
       vault w !! file = Some o /\
       FileDataHelper_encrypt host (log (EvRead file) w) (password pwh) (hint pwh) (data o)
         = Ok envelope /\
       let np := getFilePathWithNewExtension o (ENCRYPTED_FILE_EXTENSION_DEFAULT host) in
       vault w' !! file =
         Some {| path := np; data := JsonFileEncoding_encode host envelope |} /\
       getByPath (session w') np = pwh /\
       (has_char dot (ENCRYPTED_FILE_EXTENSION_DEFAULT host) = false ->
        has_char slash (ENCRYPTED_FILE_EXTENSION_DEFAULT host) = false ->
        parent_of np = parent_of (path o) /\
        basename_of np = basename_of (path o) /\
        extension_of np = ENCRYPTED_FILE_EXTENSION_DEFAULT host)) /\
  (forall w w',
     decryptOne host pwh file w = (Ok tt, w') ->
     exists o envelope plaintext,
       vault w !! file = Some o /\
       JsonFileEncoding_decode host (data o) = Ok envelope /\
       FileDataHelper_decrypt host (log (EvRead file) w) envelope (password pwh)
         = Ok (Some plaintext) /\
       let np := getFilePathWithNewExtension o "md" in
       vault w' !! file = Some {| path := np; data := plaintext |} /\
       getByPath (session w') np = pwh /\
       parent_of np = parent_of (path o) /\
       basename_of np = basename_of (path o) /\
       extension_of np = "md").
Proof.
  split; intros w w'.
  - unfold encryptOne, encryptFile, bind, read, ask, ret.
    destruct (vault w !! file) as [o|] eqn:Ho; [|discriminate].
    destruct (read_fault host w file); [discriminate|].
    destruct (FileDataHelper_encrypt host _ _ _ _) as [envelope|] eqn:Henc; [|discriminate].
    intros Hrun. apply closeUpdate_Ok in Hrun. simpl in Hrun.
    destruct Hrun as (o' & Ho' & Hv & Hs). rewrite Ho in Ho'. injection Ho' as <-.
    exists o, envelope. split; [reflexivity|]. split; [exact Henc|]. simpl.
    split; [|split].
    + rewrite Hv. apply list_lookup_insert_eq. eapply lookup_lt_Some, Ho.
    + rewrite Hs. apply getByPath_put.
    + intros Hdot Hslash. apply getFilePathWithNewExtension_parts; assumption.
  - unfold decryptOne, decryptFile, bind, read, ask, throw.
    destruct (vault w !! file) as [o|] eqn:Ho; [|discriminate].
    destruct (read_fault host w file); [discriminate|].
    destruct (JsonFileEncoding_decode host (data o)) as [envelope|] eqn:Hdec;
      [|discriminate].
    destruct (FileDataHelper_decrypt host _ envelope _) as [[plaintext|]|] eqn:Hdecrypt;
      try discriminate.
    intros Hrun. apply closeUpdate_Ok in Hrun. simpl in Hrun.
    destruct Hrun as (o' & Ho' & Hv & Hs). rewrite Ho in Ho'. injection Ho' as <-.
    exists o, envelope, plaintext. split; [reflexivity|]. split; [exact Hdec|].
    split; [exact Hdecrypt|]. simpl. split; [|split].
    + rewrite Hv. apply list_lookup_insert_eq. eapply lookup_lt_Some, Ho.
    + rewrite Hs. apply getByPath_put.
    + apply getFilePathWithNewExtension_parts; reflexivity.
Qed.

(** C10.  When, once the views are detached, the rename succeeds and the
    write that follows fails with [e]: the run ends with a thrown error; the
    session cache is the one of the start and no [putByFile] call is made;
    the file stays at its new path; the reopening of a detached file is the
    last call of the run; and the error thrown to the loop is [e], unless
    the reopening fails in turn. *)
Theorem write_failure_skips_cache (file : TFile) (ext content : string)
    (pw : PasswordAndHint) (w w2 w3 : World) (e : Exn) :
  let np := getFilePathWithNewExtension (tfile w file) ext in
  let didDetach := existsb (showsFile file) (leaves w) in
  renameFile host file np (afterDetach file (leaves w) w) = (Ok tt, w2) ->
  modify host file content w2 = (Throw e, w3) ->
  exists e' w',
    closeUpdateRememberPasswordThenReopen host file ext content pw w = (Throw e', w') /\
    session w' = session w /\
    path (tfile w' file) = np /\
    trace w' =
      trace w ++ detachEvents file (leaves w) ++
      [EvRenameFile file np; EvModify file content] ++ reopenCalls didDetach file w /\
    (e' = e \/ didDetach = true /\ exists w0, openFile_fault host w0 file = Some e').
Proof.
  intros np didDetach Hren Hmod.
  rewrite closeUpdate_phases. unfold tryFinally.
  assert (Hupd : updateFile host file ext content pw (afterDetach file (leaves w) w) =
                 (Throw e, w3)).
  { unfold updateFile, bind, gets. change (tfile (afterDetach file (leaves w) w) file)
      with (tfile w file). fold np. rewrite Hren, Hmod. reflexivity. }
  rewrite Hupd.
  destruct (renameFile_Ok _ _ _ _ Hren) as (o & Ho & ->).
  apply modify_Throw in Hmod. subst w3. simpl in Ho.
  fold didDetach.
  destruct (reopenIfDetached host didDetach file _) as [r2 w4] eqn:Hfin.
  apply reopenIfDetached_run in Hfin. simpl in Hfin.
  destruct Hfin as (Hv & Hs & Htr & Hfalse & Htrue).
  assert (Hpath : path (tfile w4 file) = np).
  { unfold tfile. rewrite Hv.
    rewrite list_lookup_insert_eq by (eapply lookup_lt_Some, Ho). reflexivity. }
  assert (Htrace : trace w4 =
            trace w ++ detachEvents file (leaves w) ++
            [EvRenameFile file np; EvModify file content] ++ reopenCalls didDetach file w).
  { rewrite Htr. unfold reopenCalls. simpl. rewrite <- !app_assoc. reflexivity. }
  destruct r2 as [[]|e2].
  - exists e, w4. repeat split; try assumption. left. reflexivity.
  - exists e2, w4. repeat split; try assumption. right.
    destruct didDetach eqn:Hd.
    + split; [reflexivity|]. destruct (Htrue eq_refl) as [_ Hthrow].
      destruct (Hthrow e2 eq_refl) as [Hnone|Hfault]; [|exact Hfault].
      rewrite list_lookup_insert_eq in Hnone by (eapply lookup_lt_Some, Ho).
      discriminate.
    + destruct (Hfalse eq_refl) as [Hr _]. discriminate.
Qed.

(** ** C3: the password for the folder *)

(** The resolution touches neither the vault, nor the workspace, nor the
    cache, and makes only quiet calls. *)
Lemma promptPasswordForFolder_frame (title : string) (isEncrypting : bool)
    (directory_path : string) (w : World) (r : Result (option PasswordAndHint))
    (w1 : World) :
  promptPasswordForFolder host title isEncrypting directory_path w = (r, w1) ->
  exists evs, w1 = extend evs w /\ Forall quiet evs.
Proof.
  unfold promptPasswordForFolder, bind, getLevel, getByPathAsync, ret.
  destruct (isLevelExternalFile (level (session w))).
  - intros [= _ <-]. exists [EvGetByPath directory_path].
    split; [reflexivity | repeat constructor].
  - destruct (String.eqb _ _).
    + unfold tryCatch, bind, openAsync, ret.
      destruct (PluginPasswordModal_openAsync host _ _ _ _ _); intros [= _ <-];
        (eexists [_; _]; split;
         [unfold log, extend; simpl; rewrite <- app_assoc; reflexivity
         | repeat constructor]).
    + intros [= _ <-]. exists [EvGetByPath directory_path].
      split; [reflexivity | repeat constructor].
Qed.

(** C3.  [promptPasswordForFolder] computes the resolution of the spec, with
    the same calls: at the level [ExternalFile] the answer of the cache for
    the directory path, without a prompt; otherwise the cached value when its
    password is not empty, without a prompt; otherwise one prompt, seeded
    with the cached value, that asks for a confirmation exactly when the
    intent is to encrypt, and whose dismissal gives [Cancelled]. *)
Theorem promptPasswordForFolder_resolve (title : string) (intent : Intent)
    (directory_path : string) (w : World) :
  promptPasswordForFolder host title (isEncryptingIntent intent) directory_path w =
  (Ok (resolution_to_option (fst (resolve_spec host title intent directory_path w))),
   extend (snd (resolve_spec host title intent directory_path w)) w).
Proof.
  unfold promptPasswordForFolder, resolve_spec, bind, getLevel, getByPathAsync, ret.
  destruct (level (session w)) as [|name]; simpl; [reflexivity|].
  destruct (String.eqb_spec (password (getByPath (session w) directory_path)) EmptyString)
    as [Hblank|Hset].
  - rewrite bool_decide_eq_false_2 by (intros H; exact (H Hblank)).
    unfold tryCatch, bind, openAsync, ret.
    assert (Hconfirm : match intent with Encrypting => true | Decrypting => false end
                       = isEncryptingIntent intent) by (destruct intent; reflexivity).
    rewrite Hconfirm.
    destruct (PluginPasswordModal_openAsync host _ title _ _ _) as [entered|e]; simpl;
      unfold log, extend; simpl; rewrite <- app_assoc; reflexivity.
  - rewrite bool_decide_eq_true_2 by exact Hset. reflexivity.
Qed.

(** ** C7: nothing to do *)

(** C7.  When no file of the folder is eligible, the batch shows the
    notice of its direction and returns: the notice is its only call, so
    that the cache is not looked up, no prompt is opened and no file is
    read, renamed or written. *)
Theorem empty_folder_only_notice (folder : TFolder) (w : World) :
  (getMarkdownFiles folder w = [] ->
   processEncryptFolder host folder w =
   (Ok tt, extend [EvNotice "No markdown files to encrypt in this folder."] w)) /\
  (getEncryptedFiles host folder w = [] ->
   processDecryptFolder host folder w =
   (Ok tt, extend [EvNotice "No encrypted files to decrypt in this folder."] w)).
Proof.
  split; intros Hnone.
  - unfold processEncryptFolder, bind, gets. rewrite Hnone. reflexivity.
  - unfold processDecryptFolder, bind, gets. rewrite Hnone. reflexivity.
Qed.

(** ** C2: the prompt is dismissed *)

Lemma length_eqb_0 {A} (l : list A) : l <> [] -> Nat.eqb (length l) 0 = false.
Proof. destruct l; [congruence | reflexivity]. Qed.

(** C2.  On a folder with eligible files, when the prompt is opened (the
    level is not [ExternalFile] and the cached password is empty) and the
    user dismisses it, the batch returns at once: its only calls are the
    cache lookup and the prompt, and the vault, the workspace and the session
    cache are those of the start; no file is read, renamed or written and no
    notice is shown. *)
Theorem cancelled_prompt_aborts (folder : TFolder) (w : World) (e : Exn) :
  let cached := getByPath (session w) (folder_path folder) in
  let atPrompt := log (EvGetByPath (folder_path folder)) w in
  let encryptTitle := "Encrypt Folder " +:+ dquote +:+ folder_name folder +:+ dquote in
  let decryptTitle := "Decrypt Folder " +:+ dquote +:+ folder_name folder +:+ dquote in
  isLevelExternalFile (level (session w)) = false ->
  password cached = EmptyString ->
  (getMarkdownFiles folder w <> [] ->
   PluginPasswordModal_openAsync host atPrompt encryptTitle true true cached = Throw e ->
   processEncryptFolder host folder w =
   (Ok tt,
    extend [EvGetByPath (folder_path folder);
            EvPasswordModal encryptTitle true true cached] w)) /\
  (getEncryptedFiles host folder w <> [] ->
   PluginPasswordModal_openAsync host atPrompt decryptTitle false false cached = Throw e ->
   processDecryptFolder host folder w =
   (Ok tt,
    extend [EvGetByPath (folder_path folder);
            EvPasswordModal decryptTitle false false cached] w)).
Proof.
  intros cached atPrompt encryptTitle decryptTitle Hlevel Hblank.
  assert (Hprompt : forall title isEncrypting,
    PluginPasswordModal_openAsync host atPrompt title isEncrypting isEncrypting cached
      = Throw e ->
    promptPasswordForFolder host title isEncrypting (folder_path folder) w =
    (Ok None,
     extend [EvGetByPath (folder_path folder);
             EvPasswordModal title isEncrypting isEncrypting cached] w)).
  { intros title isEncrypting Hcancel.
    unfold promptPasswordForFolder, bind, getLevel, getByPathAsync, ret.
    rewrite Hlevel. fold cached. rewrite Hblank. simpl.
    unfold tryCatch, bind, openAsync, ret. fold atPrompt. rewrite Hcancel.
    unfold atPrompt, log, extend. simpl. rewrite <- app_assoc. reflexivity. }
  split; intros Hfiles Hcancel.
  - unfold processEncryptFolder, bind, gets.
    rewrite (length_eqb_0 _ Hfiles). fold encryptTitle.
    rewrite (Hprompt _ _ Hcancel). reflexivity.
  - unfold processDecryptFolder, bind, gets.
    rewrite (length_eqb_0 _ Hfiles). fold decryptTitle.
    rewrite (Hprompt _ _ Hcancel). reflexivity.
Qed.

(** ** C1 and C8: the loop of the batch *)

Lemma closeUpdate_quiet (file : TFile) (ext content : string) (pw : PasswordAndHint)
    (w : World) (r : Result unit) (w' : World) :
  closeUpdateRememberPasswordThenReopen host file ext content pw w = (r, w') ->
  exists evs, trace w' = trace w ++ evs /\ Forall quiet evs.
Proof.
  intros Hrun. apply closeUpdate_calls in Hrun. destruct Hrun as (calls & Htr & Hcalls).
  eexists. split; [exact Htr|].
  apply Forall_app. split; [apply detachEvents_Forall, detachEvent_quiet|].
  apply Forall_app. split.
  - eapply updateCalls_Forall; [| | |exact Hcalls]; exact I.
  - unfold reopenCalls. destruct (existsb _ _); repeat constructor.
Qed.

(** Each step of either batch reads its file first, and then makes only
    quiet calls. *)
Lemma encryptOne_reads (pwh : PasswordAndHint) (file : TFile) (w : World)
    (r : Result unit) (w' : World) :
  encryptOne host pwh file w = (r, w') ->
  exists evs, trace w' = trace w ++ EvRead file :: evs /\ Forall quiet evs.
Proof.
  unfold encryptOne, encryptFile, bind, read, ask, ret.
  destruct (vault w !! file) as [o|].
  - destruct (read_fault host w file).
    + intros [= _ <-]. exists []. split; [reflexivity | constructor].
    + destruct (FileDataHelper_encrypt host _ _ _ _) as [envelope|].
      * intros Hrun. apply closeUpdate_quiet in Hrun. destruct Hrun as (evs & Htr & Hq).
        exists evs. split; [|exact Hq]. rewrite Htr. simpl. rewrite <- app_assoc. reflexivity.
      * intros [= _ <-]. exists []. split; [reflexivity | constructor].
  - intros [= _ <-]. exists []. split; [reflexivity | constructor].
Qed.

Lemma decryptOne_reads (pwh : PasswordAndHint) (file : TFile) (w : World)
    (r : Result unit) (w' : World) :
  decryptOne host pwh file w = (r, w') ->
  exists evs, trace w' = trace w ++ EvRead file :: evs /\ Forall quiet evs.
Proof.
  unfold decryptOne, decryptFile, bind, read, ask, throw.
  destruct (vault w !! file) as [o|].
  - destruct (read_fault host w file).
    + intros [= _ <-]. exists []. split; [reflexivity | constructor].
    + destruct (JsonFileEncoding_decode host (data o)) as [envelope|].
      * destruct (FileDataHelper_decrypt host _ envelope _) as [[plaintext|]|].
        -- intros Hrun. apply closeUpdate_quiet in Hrun. destruct Hrun as (evs & Htr & Hq).
           exists evs. split; [|exact Hq].
           rewrite Htr. simpl. rewrite <- app_assoc. reflexivity.
        -- intros [= _ <-]. exists []. split; [reflexivity | constructor].
        -- intros [= _ <-]. exists []. split; [reflexivity | constructor].
      * intros [= _ <-]. exists []. split; [reflexivity | constructor].
  - intros [= _ <-]. exists []. split; [reflexivity | constructor].
Qed.

(** The loop never throws: it visits every file in order, logs one console
    error per failed step, and its counters add up. *)
Lemma forOfTryCatch_run (msg : string) (body : TFile -> M unit) :
  (forall file w r w', body file w = (r, w') ->
     exists evs, trace w' = trace w ++ EvRead file :: evs /\ Forall quiet evs) ->
  forall files ok fail w,
  exists ok' fail' w' evs,
    forOfTryCatch msg body files ok fail w = (Ok (ok', fail'), w') /\
    trace w' = trace w ++ evs /\
    ok' + fail' = ok + fail + length files /\
    fail' = fail + length (consoleErrors evs) /\
    reads evs = files /\
    notices evs = [].
Proof.
  intros Hbody files. induction files as [|file rest IH]; intros ok fail w.
  - exists ok, fail, w, []. simpl. rewrite app_nil_r.
    repeat split; try reflexivity; lia.
  - simpl. unfold bind at 1. unfold tryCatch, bind at 1.
    destruct (body file w) as [[[]|e] w1] eqn:Hrun;
      destruct (Hbody _ _ _ _ Hrun) as (evs1 & Htr1 & Hq1);
      destruct (quiet_silent _ Hq1) as (Hn1 & Hr1 & Hc1).
    + unfold ret. simpl.
      destruct (IH (S ok) fail w1) as (ok' & fail' & w' & evs & Hloop & Htr & Hsum & Hfail & Hreads & Hnot).
      exists ok', fail', w', (EvRead file :: evs1 ++ evs).
      split; [exact Hloop|]. split; [rewrite Htr, Htr1, <- app_assoc; reflexivity|].
      split; [lia|].
      change (EvRead file :: evs1 ++ evs) with ([EvRead file] ++ evs1 ++ evs).
      rewrite !consoleErrors_app, !reads_app, !notices_app, Hn1, Hr1, Hc1, Hreads, Hnot.
      simpl. repeat split; assumption.
    + unfold console_error, bind, ret. simpl.
      destruct (IH ok (S fail) (log (EvConsoleError msg (path (tfile w1 file)) e) w1))
        as (ok' & fail' & w' & evs & Hloop & Htr & Hsum & Hfail & Hreads & Hnot).
      exists ok', fail', w',
        (EvRead file :: evs1 ++ [EvConsoleError msg (path (tfile w1 file)) e] ++ evs).
      split; [exact Hloop|].
      split; [rewrite Htr; simpl; rewrite Htr1, <- !app_assoc; reflexivity|].
      split; [lia|].
      change (EvRead file :: evs1 ++ [EvConsoleError msg (path (tfile w1 file)) e] ++ evs)
        with ([EvRead file] ++ evs1 ++ [EvConsoleError msg (path (tfile w1 file)) e] ++ evs).
      rewrite !consoleErrors_app, !reads_app, !notices_app, Hn1, Hr1, Hc1, Hreads, Hnot.
      simpl. repeat split; try reflexivity. lia.
Qed.

(** ** C9: the files of the batch *)

Lemma includes_In (l : list string) (s : string) : includes l s = true <-> In s l.
Proof.
  unfold includes. rewrite existsb_exists. split.
  - intros (x & Hx & Heq). apply String.eqb_eq in Heq. subst. exact Hx.
  - intros H. exists s. split; [exact H | apply String.eqb_refl].
Qed.

Lemma startsWith_folder (folder : TFolder) (p : string) :
  startsWith p
    (if Nat.ltb 0 (String.length (folder_path folder)) then folder_path folder +:+ "/"
     else EmptyString) = true <->
  folder_path folder = EmptyString \/ exists rest, p = folder_path folder +:+ "/" +:+ rest.
Proof.
  unfold startsWith. rewrite prefix_spec.
  destruct (folder_path folder) as [|a d] eqn:Hd; simpl.
  - split; [intros _; left; reflexivity | intros _; exists p; reflexivity].
  - split.
    + intros [r Hr]. right. exists r. rewrite Hr, append_assoc. reflexivity.
    + intros [Hroot|[r Hr]]; [discriminate|]. exists r. rewrite Hr, append_assoc. reflexivity.
Qed.

(** C9.  A file of the vault's listing is selected for the batch exactly
    when its path starts with the path of the folder followed by a slash,
    no prefix being required for the folder of empty path (the root of the
    vault), and its extension is [md] (encrypting) or one of the encrypted
    extensions (decrypting); the batch selects no other file. *)
Theorem selected_files (folder : TFolder) (w : World) (f : TFile) :
  let p := path (tfile w f) in
  let under :=
    folder_path folder = EmptyString \/ exists rest, p = folder_path folder +:+ "/" +:+ rest in
  (In f (getFiles w) ->
     (In f (getMarkdownFiles folder w) <-> under /\ extension (tfile w f) = "md") /\
     (In f (getEncryptedFiles host folder w) <->
        under /\ In (extension (tfile w f)) (ENCRYPTED_FILE_EXTENSIONS host))) /\
  (In f (getMarkdownFiles folder w) -> In f (getFiles w)) /\
  (In f (getEncryptedFiles host folder w) -> In f (getFiles w)).
Proof.
  intros p under.
  unfold getMarkdownFiles, getEncryptedFiles, getFilesRecursively.
  rewrite !filter_In, startsWith_folder, String.eqb_eq, includes_In.
  fold p under. tauto.
Qed.

End Properties.

(** * Further properties of the feature *)

Section Frames.

Variable host : Host.

(** ** What one update changes *)

(** The vault and the cache after [closeUpdateRememberPasswordThenReopen],
    by the call of the guarded block that failed first, if any. *)
Lemma closeUpdate_outcome (file : TFile) (ext content : string) (pw : PasswordAndHint)
    (w : World) (r : Result unit) (w' : World) :
  closeUpdateRememberPasswordThenReopen host file ext content pw w = (r, w') ->
  let np := getFilePathWithNewExtension (tfile w file) ext in
  (vault w' = vault w /\ session w' = session w) \/
  (exists o, vault w !! file = Some o /\
     vault w' = <[file := {| path := np; data := data o |}]> (vault w) /\
     session w' = session w) \/
  (exists o, vault w !! file = Some o /\
     vault w' = <[file := {| path := np; data := content |}]> (vault w) /\
     session w' = remember np pw (session w)).
Proof.
  rewrite closeUpdate_phases. unfold tryFinally.
  destruct (updateFile host file ext content pw _) as [r1 w1] eqn:Hupd.
  destruct (reopenIfDetached host _ file w1) as [r2 w2] eqn:Hfin.
  intros Hrun. set (np := getFilePathWithNewExtension (tfile w file) ext).
  assert (Hw' : w' = w2) by (destruct r2; congruence). subst w'.
  apply reopenIfDetached_run in Hfin. destruct Hfin as (Hv & Hs & _).
  rewrite Hv, Hs. apply updateFile_cases in Hupd.
  change (tfile (afterDetach file (leaves w) w) file) with (tfile w file) in Hupd.
  fold np in Hupd.
  destruct Hupd as [(e & _ & ->)|[(e & o & w0 & _ & _ & Ho & _ & ->)|(o & Ho & _ & ->)]].
  - left. split; reflexivity.
  - right; left. exists o. repeat split; try reflexivity. exact Ho.
  - right; right. exists o. repeat split; try reflexivity. exact Ho.
Qed.

Lemma touchesOnly_refl (files : list TFile) (pwh : PasswordAndHint) (w w' : World) :
  sameState w w' -> touchesOnly files pwh w w'.
Proof.
  intros (Hv & _ & _ & Hs). unfold touchesOnly. rewrite Hv, Hs.
  repeat split; try reflexivity. intros p. left. reflexivity.
Qed.

Lemma touchesOnly_trans (files : list TFile) (pwh : PasswordAndHint) (w1 w2 w3 : World) :
  touchesOnly files pwh w1 w2 -> touchesOnly files pwh w2 w3 ->
  touchesOnly files pwh w1 w3.
Proof.
  intros (Hl1 & Hf1 & Hv1 & He1) (Hl2 & Hf2 & Hv2 & He2).
  split; [congruence|]. split; [|split; [congruence|]].
  - intros f Hf. rewrite (Hf2 f Hf). apply Hf1, Hf.
  - intros p. destruct (He2 p) as [H2|H2]; [|right; exact H2].
    rewrite H2. apply He1.
Qed.

Lemma sameState_log (e : Event) (w : World) : sameState w (log e w).
Proof. repeat split. Qed.

Lemma sameState_extend (evs : list Event) (w : World) : sameState w (extend evs w).
Proof. repeat split. Qed.

Lemma closeUpdate_touchesOnly (files : list TFile) (file : TFile) (ext content : string)
    (pw : PasswordAndHint) (w : World) (r : Result unit) (w' : World) :
  In file files ->
  closeUpdateRememberPasswordThenReopen host file ext content pw w = (r, w') ->
  touchesOnly files pw w w'.
Proof.
  intros Hin Hrun. apply closeUpdate_outcome in Hrun.
  assert (Hne : forall f, ~ In f files -> file <> f) by (intros f Hf ->; exact (Hf Hin)).
  destruct Hrun as [[Hv Hs]|[(o & Ho & Hv & Hs)|(o & Ho & Hv & Hs)]];
    unfold touchesOnly; rewrite Hv, Hs, ?length_insert.
  - repeat split; try reflexivity. intros p. left. reflexivity.
  - split; [reflexivity|]. split; [|split; [reflexivity|left; reflexivity]].
    intros f Hf. apply list_lookup_insert_ne, Hne, Hf.
  - split; [reflexivity|]. split; [|split; [reflexivity|]].
    + intros f Hf. apply list_lookup_insert_ne, Hne, Hf.
    + intros p. simpl.
      destruct (decide (getFilePathWithNewExtension (tfile w file) ext = p)) as [->|Hp].
      * right. apply lookup_insert_eq.
      * left. apply lookup_insert_ne, Hp.
Qed.

Lemma encryptOne_touchesOnly (files : list TFile) (pwh : PasswordAndHint) (file : TFile)
    (w : World) (r : Result unit) (w' : World) :
  In file files -> encryptOne host pwh file w = (r, w') -> touchesOnly files pwh w w'.
Proof.
  intros Hin. unfold encryptOne, encryptFile, bind, read, ask, ret.
  destruct (vault w !! file) as [o|].
  - destruct (read_fault host w file).
    + intros [= _ <-]. apply touchesOnly_refl, sameState_log.
    + destruct (FileDataHelper_encrypt host _ _ _ _) as [envelope|].
      * intros Hrun. eapply touchesOnly_trans;
          [apply touchesOnly_refl, (sameState_log (EvRead file))|].
        eapply closeUpdate_touchesOnly; eassumption.
      * intros [= _ <-]. apply touchesOnly_refl, sameState_log.
  - intros [= _ <-]. apply touchesOnly_refl, sameState_log.
Qed.

Lemma decryptOne_touchesOnly (files : list TFile) (pwh : PasswordAndHint) (file : TFile)
    (w : World) (r : Result unit) (w' : World) :
  In file files -> decryptOne host pwh file w = (r, w') -> touchesOnly files pwh w w'.
Proof.
  intros Hin. unfold decryptOne, decryptFile, bind, read, ask, throw.
  destruct (vault w !! file) as [o|].
  - destruct (read_fault host w file).
    + intros [= _ <-]. apply touchesOnly_refl, sameState_log.
    + destruct (JsonFileEncoding_decode host (data o)) as [envelope|].
      * destruct (FileDataHelper_decrypt host _ envelope _) as [[plaintext|]|].
        -- intros Hrun. eapply touchesOnly_trans;
             [apply touchesOnly_refl, (sameState_log (EvRead file))|].
           eapply closeUpdate_touchesOnly; eassumption.
        -- intros [= _ <-]. apply touchesOnly_refl, sameState_log.
        -- intros [= _ <-]. apply touchesOnly_refl, sameState_log.
      * intros [= _ <-]. apply touchesOnly_refl, sameState_log.
  - intros [= _ <-]. apply touchesOnly_refl, sameState_log.
Qed.

(** The loop keeps what each of its steps keeps. *)
Lemma forOfTryCatch_touchesOnly (msg : string) (body : TFile -> M unit)
    (all : list TFile) (pwh : PasswordAndHint) :
  (forall file w r w', In file all -> body file w = (r, w') -> touchesOnly all pwh w w') ->
  forall files, incl files all ->
  forall ok fail w r w',
    forOfTryCatch msg body files ok fail w = (r, w') -> touchesOnly all pwh w w'.
Proof.
  intros Hbody files. induction files as [|file rest IH]; intros Hincl ok fail w r w'.
  - intros [= _ <-]. apply touchesOnly_refl. repeat split.
  - assert (Hin : In file all) by (apply Hincl; left; reflexivity).
    assert (Hrest : incl rest all) by (intros x Hx; apply Hincl; right; exact Hx).
    simpl. unfold bind at 1. unfold tryCatch, bind at 1.
    destruct (body file w) as [[[]|e] w1] eqn:Hrun; pose proof (Hbody _ _ _ _ Hin Hrun) as H1.
    + unfold ret. simpl. intros Hloop.
      eapply touchesOnly_trans; [exact H1|]. eapply IH; eassumption.
    + unfold console_error, bind, ret. simpl. intros Hloop.
      eapply touchesOnly_trans; [exact H1|].
      eapply touchesOnly_trans; [apply touchesOnly_refl, sameState_log|].
      eapply IH; eassumption.
Qed.

(** A batch either leaves the state as it is (nothing to do, or the prompt
    dismissed), or runs with the resolved password and touches only the
    eligible files. *)
Lemma processEncryptFolder_touchesOnly (folder : TFolder) (w : World) (r : Result unit)
    (w' : World) :
  processEncryptFolder host folder w = (r, w') ->
  sameState w w' \/
  exists pwh w1,
    promptPasswordForFolder host
      ("Encrypt Folder " +:+ dquote +:+ folder_name folder +:+ dquote) true
      (folder_path folder) w = (Ok (Some pwh), w1) /\
    touchesOnly (getMarkdownFiles folder w) pwh w w'.
Proof.
  unfold processEncryptFolder, bind at 1, gets.
  destruct (Nat.eqb (length (getMarkdownFiles folder w)) 0).
  - intros [= _ <-]. left. apply sameState_log.
  - unfold bind at 1.
    destruct (promptPasswordForFolder host _ true (folder_path folder) w)
      as [[[pwh|]|e] w1] eqn:Hprompt;
      destruct (promptPasswordForFolder_frame host _ _ _ _ _ _ Hprompt) as (evs & -> & _).
    + unfold bind.
      destruct (forOfTryCatch _ _ _ 0 0 _) as [[c|e] w2] eqn:Hloop;
        intros [= _ <-]; right; exists pwh, (extend evs w); (split; [reflexivity|]);
        (eapply touchesOnly_trans; [apply touchesOnly_refl, (sameState_extend evs)|]).
      * eapply touchesOnly_trans;
          [|apply touchesOnly_refl, sameState_log].
        eapply forOfTryCatch_touchesOnly; [|apply incl_refl|exact Hloop].
        intros file w0 r0 w0' Hin. apply encryptOne_touchesOnly, Hin.
      * eapply forOfTryCatch_touchesOnly; [|apply incl_refl|exact Hloop].
        intros file w0 r0 w0' Hin. apply encryptOne_touchesOnly, Hin.
    + intros [= _ <-]. left. apply sameState_extend.
    + intros [= _ <-]. left. apply sameState_extend.
Qed.

Lemma processDecryptFolder_touchesOnly (folder : TFolder) (w : World) (r : Result unit)
    (w' : World) :
  processDecryptFolder host folder w = (r, w') ->
  sameState w w' \/
  exists pwh w1,
    promptPasswordForFolder host
      ("Decrypt Folder " +:+ dquote +:+ folder_name folder +:+ dquote) false
      (folder_path folder) w = (Ok (Some pwh), w1) /\
    touchesOnly (getEncryptedFiles host folder w) pwh w w'.
Proof.
  unfold processDecryptFolder, bind at 1, gets.
  destruct (Nat.eqb (length (getEncryptedFiles host folder w)) 0).
  - intros [= _ <-]. left. apply sameState_log.
  - unfold bind at 1.
    destruct (promptPasswordForFolder host _ false (folder_path folder) w)
      as [[[pwh|]|e] w1] eqn:Hprompt;
      destruct (promptPasswordForFolder_frame host _ _ _ _ _ _ Hprompt) as (evs & -> & _).
    + unfold bind.
      destruct (forOfTryCatch _ _ _ 0 0 _) as [[c|e] w2] eqn:Hloop;
        intros [= _ <-]; right; exists pwh, (extend evs w); (split; [reflexivity|]);
        (eapply touchesOnly_trans; [apply touchesOnly_refl, (sameState_extend evs)|]).
      * eapply touchesOnly_trans;
          [|apply touchesOnly_refl, sameState_log].
        eapply forOfTryCatch_touchesOnly; [|apply incl_refl|exact Hloop].
        intros file w0 r0 w0' Hin. apply decryptOne_touchesOnly, Hin.
      * eapply forOfTryCatch_touchesOnly; [|apply incl_refl|exact Hloop].
        intros file w0 r0 w0' Hin. apply decryptOne_touchesOnly, Hin.
    + intros [= _ <-]. left. apply sameState_extend.
    + intros [= _ <-]. left. apply sameState_extend.
Qed.

(** ** The calls of a batch *)

Lemma closeUpdate_emits (P : Event -> Prop) (file : TFile) (ext content : string)
    (pw : PasswordAndHint) (w : World) (r : Result unit) (w' : World) :
  (forall l, P (detachEvent l)) ->
  (forall np, P (EvRenameFile file np)) ->
  P (EvModify file content) ->
  P (EvPutByFile pw file) ->
  (forall leaf, P (EvOpenFile leaf file)) ->
  closeUpdateRememberPasswordThenReopen host file ext content pw w = (r, w') ->
  exists evs, trace w' = trace w ++ evs /\ Forall P evs.
Proof.
  intros Hd Hr Hm Hp Ho Hrun. apply closeUpdate_calls in Hrun.
  destruct Hrun as (calls & Htr & Hcalls).
  eexists. split; [exact Htr|].
  apply Forall_app. split; [apply detachEvents_Forall, Hd|].
  apply Forall_app. split.
  - eapply updateCalls_Forall; [apply Hr|exact Hm|exact Hp|exact Hcalls].
  - unfold reopenCalls. destruct (existsb _ _); repeat constructor. apply Ho.
Qed.

Lemma inFootprint_detach (files : list TFile) (pwh : PasswordAndHint) (l : WorkspaceLeaf) :
  inFootprint files pwh (detachEvent l).
Proof. unfold detachEvent. destruct (instanceofEncryptedMarkdownView _); exact I. Qed.

Lemma closeUpdate_footprint (files : list TFile) (file : TFile) (ext content : string)
    (pw : PasswordAndHint) (w : World) (r : Result unit) (w' : World) :
  In file files ->
  closeUpdateRememberPasswordThenReopen host file ext content pw w = (r, w') ->
  exists evs, trace w' = trace w ++ evs /\ Forall (inFootprint files pw) evs.
Proof.
  intros Hin. apply closeUpdate_emits; simpl; auto using inFootprint_detach.
Qed.

Lemma encryptOne_footprint (files : list TFile) (pwh : PasswordAndHint) (file : TFile)
    (w : World) (r : Result unit) (w' : World) :
  In file files -> encryptOne host pwh file w = (r, w') ->
  exists evs, trace w' = trace w ++ evs /\ Forall (inFootprint files pwh) evs.
Proof.
  intros Hin. unfold encryptOne, encryptFile, bind, read, ask, ret.
  assert (Hread : Forall (inFootprint files pwh) [EvRead file])
    by (repeat constructor; exact Hin).
  destruct (vault w !! file) as [o|].
  - destruct (read_fault host w file).
    + intros [= _ <-]. eexists. split; [reflexivity | exact Hread].
    + destruct (FileDataHelper_encrypt host _ _ _ _) as [envelope|].
      * intros Hrun. eapply closeUpdate_footprint in Hrun; [|exact Hin].
        destruct Hrun as (evs & Htr & Hq). exists ([EvRead file] ++ evs).
        split; [rewrite Htr; simpl; rewrite <- app_assoc; reflexivity|].
        apply Forall_app. split; assumption.
      * intros [= _ <-]. eexists. split; [reflexivity | exact Hread].
  - intros [= _ <-]. eexists. split; [reflexivity | exact Hread].
Qed.

Lemma decryptOne_footprint (files : list TFile) (pwh : PasswordAndHint) (file : TFile)
    (w : World) (r : Result unit) (w' : World) :
  In file files -> decryptOne host pwh file w = (r, w') ->
  exists evs, trace w' = trace w ++ evs /\ Forall (inFootprint files pwh) evs.
Proof.
  intros Hin. unfold decryptOne, decryptFile, bind, read, ask, throw.
  assert (Hread : Forall (inFootprint files pwh) [EvRead file])
    by (repeat constructor; exact Hin).
  destruct (vault w !! file) as [o|].
  - destruct (read_fault host w file).
    + intros [= _ <-]. eexists. split; [reflexivity | exact Hread].
    + destruct (JsonFileEncoding_decode host (data o)) as [envelope|].
      * destruct (FileDataHelper_decrypt host _ envelope _) as [[plaintext|]|].
        -- intros Hrun. eapply closeUpdate_footprint in Hrun; [|exact Hin].
           destruct Hrun as (evs & Htr & Hq). exists ([EvRead file] ++ evs).
           split; [rewrite Htr; simpl; rewrite <- app_assoc; reflexivity|].
           apply Forall_app. split; assumption.
        -- intros [= _ <-]. eexists. split; [reflexivity | exact Hread].
        -- intros [= _ <-]. eexists. split; [reflexivity | exact Hread].
      * intros [= _ <-]. eexists. split; [reflexivity | exact Hread].
  - intros [= _ <-]. eexists. split; [reflexivity | exact Hread].
Qed.

(** The loop returns its counters, which add up, and makes only the calls
    of its steps and its console errors. *)
Lemma forOfTryCatch_emits (P : Event -> Prop) (msg : string) (body : TFile -> M unit)
    (all : list TFile) :
  (forall file w r w', In file all -> body file w = (r, w') ->
     exists evs, trace w' = trace w ++ evs /\ Forall P evs) ->
  (forall p e, P (EvConsoleError msg p e)) ->
  forall files, incl files all ->
  forall ok fail w,
  exists ok' fail' w' evs,
    forOfTryCatch msg body files ok fail w = (Ok (ok', fail'), w') /\
    trace w' = trace w ++ evs /\
    ok' + fail' = ok + fail + length files /\
    Forall P evs.
Proof.
  intros Hbody Herr files. induction files as [|file rest IH]; intros Hincl ok fail w.
  - exists ok, fail, w, []. simpl. rewrite app_nil_r.
    repeat split; try reflexivity; [lia | constructor].
  - assert (Hin : In file all) by (apply Hincl; left; reflexivity).
    assert (Hrest : incl rest all) by (intros x Hx; apply Hincl; right; exact Hx).
    simpl. unfold bind at 1. unfold tryCatch, bind at 1.
    destruct (body file w) as [[[]|e] w1] eqn:Hrun;
      destruct (Hbody _ _ _ _ Hin Hrun) as (evs1 & Htr1 & Hq1).
    + unfold ret. simpl.
      destruct (IH Hrest (S ok) fail w1) as (ok' & fail' & w' & evs & Hloop & Htr & Hsum & Hq).
      exists ok', fail', w', (evs1 ++ evs).
      split; [exact Hloop|]. split; [rewrite Htr, Htr1, <- app_assoc; reflexivity|].
      split; [lia|]. apply Forall_app. split; assumption.
    + unfold console_error, bind, ret. simpl.
      destruct (IH Hrest ok (S fail) (log (EvConsoleError msg (path (tfile w1 file)) e) w1))
        as (ok' & fail' & w' & evs & Hloop & Htr & Hsum & Hq).
      exists ok', fail', w',
        (evs1 ++ [EvConsoleError msg (path (tfile w1 file)) e] ++ evs).
      split; [exact Hloop|].
      split; [rewrite Htr; simpl; rewrite Htr1, <- !app_assoc; reflexivity|].
      split; [lia|]. apply Forall_app. split; [exact Hq1|].
      apply Forall_app. split; [repeat constructor; apply Herr | exact Hq].
Qed.

(** ** Batches that change nothing *)

Lemma sameState_trans (w1 w2 w3 : World) :
  sameState w1 w2 -> sameState w2 w3 -> sameState w1 w3.
Proof.
  intros (Hv1 & Hl1 & Hn1 & Hs1) (Hv2 & Hl2 & Hn2 & Hs2).
  repeat split; congruence.
Qed.

(** When every step fails right after its read, the loop counts every file
    as failed and changes nothing. *)
Lemma forOfTryCatch_all_fail (msg : string) (body : TFile -> M unit) (all : list TFile)
    (w : World) :
  (forall file w0, In file all -> sameState w w0 ->
     exists e, body file w0 = (Throw e, log (EvRead file) w0)) ->
  forall files, incl files all ->
  forall ok fail w0, sameState w w0 ->
  exists evs w',
    forOfTryCatch msg body files ok fail w0 = (Ok (ok, fail + length files), w') /\
    sameState w w' /\
    trace w' = trace w0 ++ evs /\
    notices evs = [].
Proof.
  intros Hbody files. induction files as [|file rest IH]; intros Hincl ok fail w0 Hsame.
  - exists [], w0. simpl. rewrite app_nil_r, Nat.add_0_r. repeat split; apply Hsame.
  - assert (Hin : In file all) by (apply Hincl; left; reflexivity).
    assert (Hrest : incl rest all) by (intros x Hx; apply Hincl; right; exact Hx).
    destruct (Hbody file w0 Hin Hsame) as (e & Hrun).
    simpl. unfold bind at 1. unfold tryCatch, bind at 1. rewrite Hrun.
    unfold console_error, bind, ret. simpl.
    set (w1 := log (EvConsoleError msg (path (tfile (log (EvRead file) w0) file)) e)
                 (log (EvRead file) w0)).
    assert (Hsame1 : sameState w w1).
    { eapply sameState_trans; [exact Hsame|]. repeat split. }
    destruct (IH Hrest ok (S fail) w1 Hsame1) as (evs & w' & Hloop & Hsame' & Htr & Hnot).
    exists ([EvRead file; EvConsoleError msg (path (tfile (log (EvRead file) w0) file)) e]
            ++ evs), w'.
    split.
    { rewrite Hloop. replace (S fail + length rest) with (fail + length (file :: rest))
        by (simpl; lia). reflexivity. }
    split; [exact Hsame'|].
    split; [rewrite Htr; unfold w1; simpl; rewrite <- !app_assoc; reflexivity|].
    rewrite notices_app, Hnot. reflexivity.
Qed.

Lemma promptPasswordForFolder_Ok (title : string) (isEncrypting : bool)
    (directory_path : string) (w : World) :
  exists answer w1,
    promptPasswordForFolder host title isEncrypting directory_path w = (Ok answer, w1).
Proof.
  unfold promptPasswordForFolder, bind, getLevel, getByPathAsync, ret.
  destruct (isLevelExternalFile (level (session w))); [eexists _, _; reflexivity|].
  destruct (String.eqb _ _); [|eexists _, _; reflexivity].
  unfold tryCatch, bind, openAsync, ret.
  destruct (PluginPasswordModal_openAsync host _ _ _ _ _); eexists _, _; reflexivity.
Qed.

(** Every run of a batch returns, with at most one notice. *)
Lemma processEncryptFolder_returns (folder : TFolder) (w : World) :
  exists evs w',
    processEncryptFolder host folder w = (Ok tt, w') /\
    trace w' = trace w ++ evs /\ length (notices evs) <= 1.
Proof.
  unfold processEncryptFolder, bind at 1, gets.
  destruct (Nat.eqb (length (getMarkdownFiles folder w)) 0).
  - eexists [_], _. split; [reflexivity|]. split; [reflexivity | simpl; lia].
  - unfold bind at 1.
    destruct (promptPasswordForFolder_Ok
                ("Encrypt Folder " +:+ dquote +:+ folder_name folder +:+ dquote) true
                (folder_path folder) w)
      as (answer & w1 & Hprompt).
    rewrite Hprompt.
    destruct (promptPasswordForFolder_frame host _ _ _ _ _ _ Hprompt) as (evs0 & -> & Hq0).
    destruct (quiet_silent _ Hq0) as (Hn0 & _).
    destruct answer as [pwh|].
    + destruct (forOfTryCatch_run "Failed to encrypt" (encryptOne host pwh)
                  (encryptOne_reads host pwh) (getMarkdownFiles folder w) 0 0
                  (extend evs0 w))
        as (ok & fail & w' & evs & Hloop & Htr & _ & _ & _ & Hnot).
      unfold bind. rewrite Hloop.
      eexists (evs0 ++ evs ++ [_]), _. split; [reflexivity|]. simpl.
      split; [rewrite Htr; simpl; rewrite <- !app_assoc; reflexivity|].
      rewrite !notices_app, Hn0, Hnot. simpl. lia.
    + exists evs0, (extend evs0 w). split; [reflexivity|]. split; [reflexivity|].
      rewrite Hn0. simpl. lia.
Qed.

Lemma processDecryptFolder_returns (folder : TFolder) (w : World) :
  exists evs w',
    processDecryptFolder host folder w = (Ok tt, w') /\
    trace w' = trace w ++ evs /\ length (notices evs) <= 1.
Proof.
  unfold processDecryptFolder, bind at 1, gets.
  destruct (Nat.eqb (length (getEncryptedFiles host folder w)) 0).
  - eexists [_], _. split; [reflexivity|]. split; [reflexivity | simpl; lia].
  - unfold bind at 1.
    destruct (promptPasswordForFolder_Ok
                ("Decrypt Folder " +:+ dquote +:+ folder_name folder +:+ dquote) false
                (folder_path folder) w)
      as (answer & w1 & Hprompt).
    rewrite Hprompt.
    destruct (promptPasswordForFolder_frame host _ _ _ _ _ _ Hprompt) as (evs0 & -> & Hq0).
    destruct (quiet_silent _ Hq0) as (Hn0 & _).
    destruct answer as [pwh|].
    + destruct (forOfTryCatch_run "Failed to decrypt" (decryptOne host pwh)
                  (decryptOne_reads host pwh) (getEncryptedFiles host folder w) 0 0
                  (extend evs0 w))
        as (ok & fail & w' & evs & Hloop & Htr & _ & _ & _ & Hnot).
      unfold bind. rewrite Hloop.
      eexists (evs0 ++ evs ++ [_]), _. split; [reflexivity|]. simpl.
      split; [rewrite Htr; simpl; rewrite <- !app_assoc; reflexivity|].
      rewrite !notices_app, Hn0, Hnot. simpl. lia.
    + exists evs0, (extend evs0 w). split; [reflexivity|]. split; [reflexivity|].
      rewrite Hn0. simpl. lia.
Qed.

Lemma List_filter_sublist {A} (f : A -> bool) (l : list A) : List.filter f l `sublist_of` l.
Proof.
  induction l as [|x l IH]; simpl; [constructor|].
  destruct (f x); [apply sublist_skip | apply sublist_cons]; exact IH.
Qed.

End Frames.

Section Extras.

Variable host : Host.

(** ** X1: files outside the batch *)

(** X1.  Whatever its outcome, a batch keeps the number of files of the
    vault and leaves every file that is not eligible, in or out of the
    folder, with its path and its content. *)
Theorem batch_touches_only_eligible_files (folder : TFolder) (w : World) :
  (forall r w',
     processEncryptFolder host folder w = (r, w') ->
     length (vault w') = length (vault w) /\
     forall f, ~ In f (getMarkdownFiles folder w) -> vault w' !! f = vault w !! f) /\
  (forall r w',
     processDecryptFolder host folder w = (r, w') ->
     length (vault w') = length (vault w) /\
     forall f, ~ In f (getEncryptedFiles host folder w) -> vault w' !! f = vault w !! f).
Proof.
  split; intros r w' Hrun.
  - apply processEncryptFolder_touchesOnly in Hrun.
    destruct Hrun as [(Hv & _)|(pwh & w1 & _ & Hlen & Hkeep & _)].
    + rewrite Hv. split; [reflexivity | intros f _; reflexivity].
    + split; assumption.
  - apply processDecryptFolder_touchesOnly in Hrun.
    destruct Hrun as [(Hv & _)|(pwh & w1 & _ & Hlen & Hkeep & _)].
    + rewrite Hv. split; [reflexivity | intros f _; reflexivity].
    + split; assumption.
Qed.

(** ** X2: the calls of a batch once the password is resolved *)

(** X2.  Once the password of a batch is resolved, every call the batch
    makes before its summary is in its footprint: each read, rename, write
    and reopening is on an eligible file, each cache write remembers the
    resolved password for an eligible file, and the batch makes no further
    cache lookup, no further prompt and no other notice. *)
Theorem batch_calls_in_footprint (folder : TFolder) (w : World) :
  (forall pwh w1,
     getMarkdownFiles folder w <> [] ->
     promptPasswordForFolder host
       ("Encrypt Folder " +:+ dquote +:+ folder_name folder +:+ dquote) true
       (folder_path folder) w = (Ok (Some pwh), w1) ->
     exists ok fail evs w',
       processEncryptFolder host folder w = (Ok tt, w') /\
       trace w' = trace w1 ++ evs ++ [EvNotice (summary "encrypted" ok fail)] /\
       Forall (inFootprint (getMarkdownFiles folder w) pwh) evs) /\
  (forall pwh w1,
     getEncryptedFiles host folder w <> [] ->
     promptPasswordForFolder host
       ("Decrypt Folder " +:+ dquote +:+ folder_name folder +:+ dquote) false
       (folder_path folder) w = (Ok (Some pwh), w1) ->
     exists ok fail evs w',
       processDecryptFolder host folder w = (Ok tt, w') /\
       trace w' = trace w1 ++ evs ++ [EvNotice (summary "decrypted" ok fail)] /\
       Forall (inFootprint (getEncryptedFiles host folder w) pwh) evs).
Proof.
  split; intros pwh w1 Hfiles Hprompt.
  - destruct (forOfTryCatch_emits (inFootprint (getMarkdownFiles folder w) pwh)
                "Failed to encrypt" (encryptOne host pwh) (getMarkdownFiles folder w)
                (fun file w0 r0 w0' Hin => encryptOne_footprint host _ pwh file w0 r0 w0' Hin)
                (fun _ _ => I) _ (incl_refl _) 0 0 w1)
      as (ok & fail & w' & evs & Hloop & Htr & _ & Hq).
    exists ok, fail, evs, (log (EvNotice (summary "encrypted" ok fail)) w').
    split; [|split; [|exact Hq]].
    + unfold processEncryptFolder, bind at 1, gets.
      rewrite (length_eqb_0 _ Hfiles). unfold bind at 1. rewrite Hprompt.
      unfold bind. rewrite Hloop. reflexivity.
    + simpl. rewrite Htr, <- app_assoc. reflexivity.
  - destruct (forOfTryCatch_emits (inFootprint (getEncryptedFiles host folder w) pwh)
                "Failed to decrypt" (decryptOne host pwh) (getEncryptedFiles host folder w)
                (fun file w0 r0 w0' Hin => decryptOne_footprint host _ pwh file w0 r0 w0' Hin)
                (fun _ _ => I) _ (incl_refl _) 0 0 w1)
      as (ok & fail & w' & evs & Hloop & Htr & _ & Hq).
    exists ok, fail, evs, (log (EvNotice (summary "decrypted" ok fail)) w').
    split; [|split; [|exact Hq]].
    + unfold processDecryptFolder, bind at 1, gets.
      rewrite (length_eqb_0 _ Hfiles). unfold bind at 1. rewrite Hprompt.
      unfold bind. rewrite Hloop. reflexivity.
    + simpl. rewrite Htr, <- app_assoc. reflexivity.
Qed.

(** ** X3: the level [ExternalFile] *)


(** ** X4: a password that opens no file *)

(** X4.  In a decrypting batch whose resolved password decrypts the
    envelope of no eligible file, every file is counted as failed and
    nothing else happens: the vault, the workspace and the session cache are
    those of the start, and the only notice is the summary with no success. *)
Theorem undecryptable_batch_changes_nothing (folder : TFolder) (w : World)
    (pwh : PasswordAndHint) (w1 : World) :
  getEncryptedFiles host folder w <> [] ->
  promptPasswordForFolder host
    ("Decrypt Folder " +:+ dquote +:+ folder_name folder +:+ dquote) false
    (folder_path folder) w = (Ok (Some pwh), w1) ->
  (forall f o envelope w0 plaintext,
     In f (getEncryptedFiles host folder w) -> vault w !! f = Some o ->
     JsonFileEncoding_decode host (data o) = Ok envelope ->
     FileDataHelper_decrypt host w0 envelope (password pwh) <> Ok (Some plaintext)) ->
  exists evs w',
    processDecryptFolder host folder w = (Ok tt, w') /\
    sameState w w' /\
    trace w' = trace w ++ evs /\
    notices evs =
      [summary "decrypted" 0 (length (getEncryptedFiles host folder w))].
Proof.
  intros Hfiles Hprompt Hwrong.
  destruct (promptPasswordForFolder_frame host _ _ _ _ _ _ Hprompt) as (evs0 & -> & Hq0).
  destruct (quiet_silent _ Hq0) as (Hn0 & _).
  assert (Hbody : forall file w0,
    In file (getEncryptedFiles host folder w) -> sameState w w0 ->
    exists e, decryptOne host pwh file w0 = (Throw e, log (EvRead file) w0)).
  { intros file w0 Hin (Hv & _).
    unfold decryptOne, decryptFile, bind, read, ask, throw. rewrite Hv.
    destruct (vault w !! file) as [o|] eqn:Ho; [|eexists; reflexivity].
    destruct (read_fault host w0 file); [eexists; reflexivity|].
    destruct (JsonFileEncoding_decode host (data o)) as [envelope|] eqn:Hdec;
      [|eexists; reflexivity].
    destruct (FileDataHelper_decrypt host _ envelope _) as [[plaintext|]|] eqn:Hd;
      try (eexists; reflexivity).
    exfalso. exact (Hwrong _ _ _ _ _ Hin Ho Hdec Hd). }
  destruct (forOfTryCatch_all_fail "Failed to decrypt" (decryptOne host pwh)
              (getEncryptedFiles host folder w) w Hbody _ (incl_refl _) 0 0
              (extend evs0 w) (sameState_extend evs0 w))
    as (evs & w' & Hloop & Hsame & Htr & Hnot).
  exists (evs0 ++ evs ++
          [EvNotice (summary "decrypted" 0 (length (getEncryptedFiles host folder w)))]),
    (log (EvNotice (summary "decrypted" 0 (length (getEncryptedFiles host folder w)))) w').
  split.
  { unfold processDecryptFolder, bind at 1, gets.
    rewrite (length_eqb_0 _ Hfiles). unfold bind at 1. rewrite Hprompt.
    unfold bind. rewrite Hloop. reflexivity. }
  split; [eapply sameState_trans; [exact Hsame | apply sameState_log]|].
  split; [simpl; rewrite Htr; simpl; rewrite <- !app_assoc; reflexivity|].
  rewrite !notices_app, Hn0, Hnot. reflexivity.
Qed.

(** ** X5: encrypting, then decrypting *)

(** X5.  After a file is encrypted with success, when the codec decodes
    what it encodes and the decryption opens, with the same password, the
    envelope made from the content of the file, the decrypting step on that
    file, once the file is read, updates it with exactly its original
    content; when this step succeeds the file holds its original content
    again. *)
Theorem encrypt_then_decrypt_restores_content (pwh : PasswordAndHint) (file : TFile)
    (w w1 : World) (o : TFileObj) :
  vault w !! file = Some o ->
  encryptOne host pwh file w = (Ok tt, w1) ->
  (forall envelope,
     JsonFileEncoding_decode host (JsonFileEncoding_encode host envelope) = Ok envelope) ->
  (forall envelope,
     FileDataHelper_encrypt host (log (EvRead file) w) (password pwh) (hint pwh) (data o)
       = Ok envelope ->
     FileDataHelper_decrypt host (log (EvRead file) w1) envelope (password pwh)
       = Ok (Some (data o))) ->
  read_fault host w1 file = None ->
  decryptOne host pwh file w1 =
    closeUpdateRememberPasswordThenReopen host file "md" (data o) pwh
      (log (EvRead file) w1) /\
  forall w2, decryptOne host pwh file w1 = (Ok tt, w2) -> data (tfile w2 file) = data o.
Proof.
  intros Ho Henc Hcodec Hcrypto Hread.
  unfold encryptOne, encryptFile, bind, read, ask, ret in Henc. rewrite Ho in Henc.
  destruct (read_fault host w file); [discriminate|].
  destruct (FileDataHelper_encrypt host _ _ _ _) as [envelope|] eqn:Hseal; [|discriminate].
  apply closeUpdate_Ok in Henc. destruct Henc as (o' & Ho' & Hv & _).
  simpl in Ho'. rewrite Ho in Ho'. injection Ho' as <-.
  assert (Hfile : vault w1 !! file =
            Some {| path := getFilePathWithNewExtension o
                              (ENCRYPTED_FILE_EXTENSION_DEFAULT host);
                    data := JsonFileEncoding_encode host envelope |}).
  { rewrite Hv. apply list_lookup_insert_eq. eapply lookup_lt_Some, Ho. }
  assert (Hstep : decryptOne host pwh file w1 =
            closeUpdateRememberPasswordThenReopen host file "md" (data o) pwh
              (log (EvRead file) w1)).
  { unfold decryptOne, decryptFile, bind, read, ask.
    rewrite Hfile, Hread. simpl. rewrite Hcodec, (Hcrypto envelope eq_refl). reflexivity. }
  split; [exact Hstep|].
  intros w2 Hrun. rewrite Hstep in Hrun. apply closeUpdate_Ok in Hrun.
  destruct Hrun as (o2 & Ho2 & Hv2 & _). simpl in Ho2.
  unfold tfile. rewrite Hv2.
  rewrite list_lookup_insert_eq by (eapply lookup_lt_Some, Ho2). reflexivity.
Qed.

(** ** X6 and X7: the cache write and the reopening *)

(** X6.  On a host that renames and writes the file without a fault but
    fails to open it with [e], the update of a file shown in a text view
    throws [e], so that the loop counts the file as failed; yet the file has
    its new path and its new content, and the cache write was made. *)
Theorem reopen_failure_fails_an_updated_file (file : TFile) (ext content : string)
    (pw : PasswordAndHint) (w : World) (o : TFileObj) (e : Exn) :
  vault w !! file = Some o ->
  (exists l, In l (leaves w) /\ showsFile file l = true) ->
  (forall w0 p, renameFile_fault host w0 file p = None) ->
  (forall w0 c, modify_fault host w0 file c = None) ->
  (forall w0, openFile_fault host w0 file = Some e) ->
  exists evs w',
    closeUpdateRememberPasswordThenReopen host file ext content pw w = (Throw e, w') /\
    vault w' !! file =
      Some {| path := getFilePathWithNewExtension o ext; data := content |} /\
    trace w' = trace w ++ evs /\
    In (EvPutByFile pw file) evs.
Proof.
  intros Ho Hshown Hren Hmod Hopen.
  apply existsb_showsFile in Hshown.
  assert (Hlt : file < length (vault w)) by (eapply lookup_lt_Some, Ho).
  rewrite closeUpdate_phases. unfold tryFinally.
  assert (Hupd : exists w2,
    updateFile host file ext content pw (afterDetach file (leaves w) w) = (Ok tt, w2)).
  { unfold updateFile, bind, gets, renameFile, modify, putByFile. simpl.
    rewrite Ho, Hren. simpl. rewrite list_lookup_insert_eq by exact Hlt.
    rewrite Hmod. eexists. reflexivity. }
  destruct Hupd as (w2 & Hupd). rewrite Hupd, Hshown.
  apply updateFile_cases in Hupd.
  destruct Hupd as [(e0 & He0 & _)|[(e0 & o0 & w0 & _ & _ & _ & He0 & _)|(o' & Ho' & _ & Hw2)]];
    try discriminate.
  simpl in Ho'. rewrite Ho in Ho'. injection Ho' as <-.
  assert (Hfin : exists w3,
    reopenIfDetached host true file w2 = (Throw e, w3) /\
    vault w3 = vault w2 /\
    trace w3 = trace w2 ++ [EvOpenFile (next_leaf w2) file]).
  { unfold reopenIfDetached, bind, getLeaf, openFile. simpl.
    rewrite Hw2. simpl. rewrite list_lookup_insert_eq by exact Hlt.
    rewrite Hopen. eexists. repeat split; reflexivity. }
  destruct Hfin as (w3 & Hfin & Hv3 & Htr3). rewrite Hfin.
  exists (detachEvents file (leaves w) ++
          [EvRenameFile file (getFilePathWithNewExtension (tfile w file) ext);
           EvModify file content; EvPutByFile pw file] ++
          [EvOpenFile (next_leaf w2) file]), w3.
  split; [reflexivity|]. split; [|split].
  - rewrite Hv3, Hw2. simpl. unfold tfile.
    change (vault (afterDetach file (leaves w) w)) with (vault w).
    rewrite Ho. simpl. apply list_lookup_insert_eq, Hlt.
  - rewrite Htr3, Hw2. simpl. rewrite <- !app_assoc. reflexivity.
  - apply in_or_app. right. simpl. tauto.
Qed.

(** X7.  In every run of [closeUpdateRememberPasswordThenReopen], whatever
    its outcome: a cache write is made only when the file was renamed and
    written, the file then having its new path and its new content at the
    end of the run; and a run that succeeds made the cache write. *)
Theorem cache_write_only_after_update (file : TFile) (ext content : string)
    (pw : PasswordAndHint) (w : World) (r : Result unit) (w' : World) :
  closeUpdateRememberPasswordThenReopen host file ext content pw w = (r, w') ->
  exists evs,
    trace w' = trace w ++ evs /\
    (r = Ok tt -> In (EvPutByFile pw file) evs) /\
    ((exists p f, In (EvPutByFile p f) evs) ->
     exists o, vault w !! file = Some o /\
       vault w' !! file =
         Some {| path := getFilePathWithNewExtension o ext; data := content |}).
Proof.
  rewrite closeUpdate_phases. unfold tryFinally.
  destruct (updateFile host file ext content pw _) as [r1 w1] eqn:Hupd.
  destruct (reopenIfDetached host _ file w1) as [r2 w2] eqn:Hfin.
  intros Hrun.
  assert (Hw' : w' = w2) by (destruct r2; congruence). subst w'.
  assert (Hr : r = Ok tt -> r1 = Ok tt) by (destruct r2; congruence).
  apply reopenIfDetached_run in Hfin. destruct Hfin as (Hv & _ & Htr & _).
  set (P := fun e : Event => forall p f, e <> EvPutByFile p f).
  assert (Hd : Forall P (detachEvents file (leaves w))).
  { apply detachEvents_Forall. intros l p f. unfold detachEvent.
    destruct (instanceofEncryptedMarkdownView _); discriminate. }
  assert (Ho : Forall P (reopenCalls (existsb (showsFile file) (leaves w)) file w1)).
  { unfold reopenCalls. destruct (existsb _ _); repeat constructor. intros p f.
    discriminate. }
  assert (Hnone : forall evs, Forall P evs -> (exists p f, In (EvPutByFile p f) evs) -> False).
  { intros evs Hall (p & f & Hin). rewrite List.Forall_forall in Hall.
    exact (Hall _ Hin p f eq_refl). }
  apply updateFile_cases in Hupd.
  change (tfile (afterDetach file (leaves w) w) file) with (tfile w file) in Hupd.
  destruct Hupd as [(e & -> & Hw1)|[(e & o & w0 & _ & _ & Ho1 & -> & Hw1)|(o & Ho1 & -> & Hw1)]];
    subst w1.
  - eexists. split; [rewrite Htr; simpl; rewrite <- !app_assoc; reflexivity|].
    split; [intros H; apply Hr in H; discriminate|].
    intros Hput. exfalso. simpl in Hput. eapply Hnone; [|exact Hput].
    apply Forall_app. split; [exact Hd|].
    constructor; [intros p f; discriminate | exact Ho].
  - eexists. split; [rewrite Htr; simpl; rewrite <- !app_assoc; reflexivity|].
    split; [intros H; apply Hr in H; discriminate|].
    intros Hput. exfalso. simpl in Hput. eapply Hnone; [|exact Hput].
    apply Forall_app. split; [exact Hd|].
    constructor; [intros p f; discriminate|].
    constructor; [intros p f; discriminate | exact Ho].
  - eexists. split; [rewrite Htr; simpl; rewrite <- !app_assoc; reflexivity|].
    split; [intros _; apply in_or_app; right; simpl; tauto|].
    intros _. simpl in Ho1. exists o. split; [exact Ho1|].
    rewrite Hv. simpl. unfold tfile. rewrite Ho1. simpl.
    apply list_lookup_insert_eq. eapply lookup_lt_Some, Ho1.
Qed.

(** ** X8 and X9: the selection *)

(** X8.  The files selected for a batch are a subsequence of the listing
    of the vault: they are selected in the order of the listing, and no file
    is selected twice. *)
Theorem selection_follows_listing (folder : TFolder) (w : World) :
  (getMarkdownFiles folder w `sublist_of` getFiles w /\
   NoDup (getMarkdownFiles folder w)) /\
  (getEncryptedFiles host folder w `sublist_of` getFiles w /\
   NoDup (getEncryptedFiles host folder w)).
Proof.
  assert (Hsub : forall f g,
    List.filter f (List.filter g (getFiles w)) `sublist_of` getFiles w).
  { intros f g. etransitivity; apply List_filter_sublist. }
  split; (split; [apply Hsub|]); eapply sublist_NoDup; try apply Hsub;
    apply NoDup_seq.
Qed.

(** X9.  The files of a folder are files of each of its ancestors: when the
    path of [child] is the path of [parent], a slash and more, or when
    [parent] has the empty path, every file selected for [child] is selected
    for [parent], in each direction. *)
Theorem subfolder_selection_included (parent child : TFolder) (w : World) (f : TFile) :
  folder_path parent = EmptyString \/
  (exists rest, folder_path child = folder_path parent +:+ "/" +:+ rest) ->
  (In f (getFilesRecursively child w) -> In f (getFilesRecursively parent w)) /\
  (In f (getMarkdownFiles child w) -> In f (getMarkdownFiles parent w)) /\
  (In f (getEncryptedFiles host child w) -> In f (getEncryptedFiles host parent w)).
Proof.
  intros Hunder.
  assert (Hrec : In f (getFilesRecursively child w) -> In f (getFilesRecursively parent w)).
  { unfold getFilesRecursively. rewrite !filter_In, !startsWith_folder.
    intros [Hin Hchild]. split; [exact Hin|].
    destruct Hunder as [Hroot|[rest Hrest]]; [left; exact Hroot|].
    right. destruct Hchild as [Hempty|[r Hr]].
    - rewrite Hempty in Hrest. destruct (folder_path parent); discriminate.
    - exists (rest +:+ "/" +:+ r). rewrite Hr, Hrest, !append_assoc. reflexivity. }
  split; [exact Hrec|].
  unfold getMarkdownFiles, getEncryptedFiles. rewrite !filter_In. tauto.
Qed.

(** ** X10: the menu *)

(** X10.  The handler of the [file-menu] event keeps the items of the menu;
    it adds nothing for a file and, for a folder, the items [Encrypt folder]
    and [Decrypt folder], in this order, with their icons; clicking either,
    in any state, returns without an error and shows at most one notice. *)
Theorem folder_menu_items (menu : list MenuItem) (file : TAbstractFile) :
  exists added,
    onFileMenu host menu file = menu ++ added /\
    match file with
    | AFile _ => added = []
    | AFolder folder =>
        map item_title added = ["Encrypt folder"; "Decrypt folder"] /\
        map item_icon added = ["folder-lock"; "folder-lock-open"] /\
        map item_onClick added =
          [processEncryptFolder host folder; processDecryptFolder host folder]
    end /\
    forall item, In item added ->
      forall w, exists evs w',
        item_onClick item w = (Ok tt, w') /\
        trace w' = trace w ++ evs /\ length (notices evs) <= 1.
Proof.
  destruct file as [f|folder].
  - exists []. split; [symmetry; apply app_nil_r|]. split; [reflexivity|]. intros item [].
  - eexists [_; _]. split; [unfold onFileMenu, addItem; rewrite <- app_assoc; reflexivity|].
    split; [repeat split|].
    intros item [<-|[<-|[]]] w; simpl.
    + apply processEncryptFolder_returns.
    + apply processDecryptFolder_returns.
Qed.

End Extras.

(** * The counters of a batch *)

(** The loop computes a run of its steps: its counters are those it was
    given plus the numbers of steps that returned and that threw. *)
Lemma forOfTryCatch_BatchRun (msg : string) (body : TFile -> M unit) (files : list TFile) :
  forall ok fail w,
  exists okr failr w',
    BatchRun msg body files w okr failr w' /\
    forOfTryCatch msg body files ok fail w = (Ok (ok + okr, fail + failr), w').
Proof.
  induction files as [|file rest IH]; intros ok fail w.
  - exists 0, 0, w. split; [constructor|]. simpl. unfold ret.
    rewrite !Nat.add_0_r. reflexivity.
  - simpl. unfold bind at 1. unfold tryCatch, bind at 1.
    destruct (body file w) as [[[]|e] w1] eqn:Hrun.
    + unfold ret. simpl.
      destruct (IH (S ok) fail w1) as (okr & failr & w' & Hrest & Hloop).
      exists (S okr), failr, w'. split; [eapply BatchRun_ok; eassumption|].
      rewrite Hloop, Nat.add_succ_r. reflexivity.
    + unfold console_error, bind, ret. simpl.
      destruct (IH ok (S fail) (log (EvConsoleError msg (path (tfile w1 file)) e) w1))
        as (okr & failr & w' & Hrest & Hloop).
      exists okr, (S failr), w'. split; [eapply BatchRun_fail; eassumption|].
      rewrite Hloop, Nat.add_succ_r. reflexivity.
Qed.

Lemma BatchRun_length (msg : string) (body : TFile -> M unit) (files : list TFile)
    (w : World) (ok fail : nat) (w' : World) :
  BatchRun msg body files w ok fail w' -> ok + fail = length files.
Proof. induction 1; simpl; lia. Qed.

Section Counting.

Variable host : Host.

(** ** C1: every failure is caught and counted *)

(** C1.  A batch over a non-empty set of eligible files, once the password
    is resolved, runs the step of every eligible file, in order, each in the
    world left by the one before: a step that throws is caught, logged on
    the console and counted in [fail], and the next file is processed all
    the same; a step that returns is counted in [ok].  The batch then ends
    without an error, and its last call is its only notice,
    [Folder encrypted: N ok, M failed] (or [decrypted]), with [N] and [M]
    the two counts in decimal; it has read every eligible file, in order;
    [M] is the number of console errors; and [N + M] is the number of
    eligible files. *)
Theorem batch_counts_every_file (folder : TFolder) (w : World) :
  (forall pwh w1,
     getMarkdownFiles folder w <> [] ->
     promptPasswordForFolder host
       ("Encrypt Folder " +:+ dquote +:+ folder_name folder +:+ dquote) true
       (folder_path folder) w = (Ok (Some pwh), w1) ->
     exists ok fail evs w2,
       BatchRun "Failed to encrypt" (encryptOne host pwh) (getMarkdownFiles folder w)
         w1 ok fail w2 /\
       processEncryptFolder host folder w =
         (Ok tt,
          log (EvNotice ("Folder encrypted: " +:+ pretty ok +:+ " ok, " +:+ pretty fail
                         +:+ " failed")) w2) /\
       trace w2 = trace w ++ evs /\
       notices evs = [] /\
       reads evs = getMarkdownFiles folder w /\
       length (consoleErrors evs) = fail /\
       ok + fail = length (getMarkdownFiles folder w)) /\
  (forall pwh w1,
     getEncryptedFiles host folder w <> [] ->
     promptPasswordForFolder host
       ("Decrypt Folder " +:+ dquote +:+ folder_name folder +:+ dquote) false
       (folder_path folder) w = (Ok (Some pwh), w1) ->
     exists ok fail evs w2,
       BatchRun "Failed to decrypt" (decryptOne host pwh) (getEncryptedFiles host folder w)
         w1 ok fail w2 /\
       processDecryptFolder host folder w =
         (Ok tt,
          log (EvNotice ("Folder decrypted: " +:+ pretty ok +:+ " ok, " +:+ pretty fail
                         +:+ " failed")) w2) /\
       trace w2 = trace w ++ evs /\
       notices evs = [] /\
       reads evs = getEncryptedFiles host folder w /\
       length (consoleErrors evs) = fail /\
       ok + fail = length (getEncryptedFiles host folder w)).
Proof.
  split; intros pwh w1 Hfiles Hprompt.
  - destruct (promptPasswordForFolder_frame host _ _ _ _ _ _ Hprompt) as (evs0 & Hw1 & Hq0).
    destruct (quiet_silent _ Hq0) as (Hn0 & Hr0 & Hc0).
    destruct (forOfTryCatch_run "Failed to encrypt" (encryptOne host pwh)
                (encryptOne_reads host pwh) (getMarkdownFiles folder w) 0 0 w1)
      as (ok' & fail' & w' & evs & Hloop & Htr & _ & Hfail & Hreads & Hnot).
    destruct (forOfTryCatch_BatchRun "Failed to encrypt" (encryptOne host pwh)
                (getMarkdownFiles folder w) 0 0 w1)
      as (ok & fail & w2 & Hsteps & Hloop2).
    rewrite Hloop in Hloop2. simpl in Hloop2. injection Hloop2 as -> -> ->.
    exists ok, fail, (evs0 ++ evs), w2. split; [exact Hsteps|]. split.
    { unfold processEncryptFolder, bind at 1, gets.
      rewrite (length_eqb_0 _ Hfiles). unfold bind at 1. rewrite Hprompt.
      unfold bind. rewrite Hloop. reflexivity. }
    split; [rewrite Htr, Hw1; simpl; rewrite <- app_assoc; reflexivity|].
    rewrite consoleErrors_app, reads_app, notices_app, Hn0, Hr0, Hc0, Hreads, Hnot.
    simpl. repeat split; try reflexivity; [lia|].
    eapply BatchRun_length, Hsteps.
  - destruct (promptPasswordForFolder_frame host _ _ _ _ _ _ Hprompt) as (evs0 & Hw1 & Hq0).
    destruct (quiet_silent _ Hq0) as (Hn0 & Hr0 & Hc0).
    destruct (forOfTryCatch_run "Failed to decrypt" (decryptOne host pwh)
                (decryptOne_reads host pwh) (getEncryptedFiles host folder w) 0 0 w1)
      as (ok' & fail' & w' & evs & Hloop & Htr & _ & Hfail & Hreads & Hnot).
    destruct (forOfTryCatch_BatchRun "Failed to decrypt" (decryptOne host pwh)
                (getEncryptedFiles host folder w) 0 0 w1)
      as (ok & fail & w2 & Hsteps & Hloop2).
    rewrite Hloop in Hloop2. simpl in Hloop2. injection Hloop2 as -> -> ->.
    exists ok, fail, (evs0 ++ evs), w2. split; [exact Hsteps|]. split.
    { unfold processDecryptFolder, bind at 1, gets.
      rewrite (length_eqb_0 _ Hfiles). unfold bind at 1. rewrite Hprompt.
      unfold bind. rewrite Hloop. reflexivity. }
    split; [rewrite Htr, Hw1; simpl; rewrite <- app_assoc; reflexivity|].
    rewrite consoleErrors_app, reads_app, notices_app, Hn0, Hr0, Hc0, Hreads, Hnot.
    simpl. repeat split; try reflexivity; [lia|].
    eapply BatchRun_length, Hsteps.
Qed.

(** ** C8: a file that does not decrypt *)

(** C8.  When the loop of a decrypting batch, with counters [ok] and
    [fail], comes to a file that is read and whose content the codec fails
    to decode, or whose envelope the decryption answers [null] for: the step
    throws right after the read, without a rename or a write; the loop
    catches it, logs it and goes on with the remaining files; the loop then
    returns without an error, its [fail] counter being [fail], plus one for
    this file, plus the failures of the remaining files, and its [ok]
    counter [ok] plus their successes; and the file, when it is not
    processed again, still has its path and content at the end. *)
Theorem failed_decryption_is_counted (pwh : PasswordAndHint) (file : TFile)
    (rest : list TFile) (ok fail : nat) (w : World) (o : TFileObj) (e : Exn) :
  vault w !! file = Some o ->
  read_fault host w file = None ->
  (JsonFileEncoding_decode host (data o) = Throw e \/
   (e = "Decryption failed" /\
    exists envelope,
      JsonFileEncoding_decode host (data o) = Ok envelope /\
      FileDataHelper_decrypt host (log (EvRead file) w) envelope (password pwh)
        = Ok None)) ->
  decryptOne host pwh file w = (Throw e, log (EvRead file) w) /\
  exists okr failr w',
    BatchRun "Failed to decrypt" (decryptOne host pwh) rest
      (extend [EvRead file; EvConsoleError "Failed to decrypt" (path o) e] w)
      okr failr w' /\
    forOfTryCatch "Failed to decrypt" (decryptOne host pwh) (file :: rest) ok fail w =
      (Ok (ok + okr, S (fail + failr)), w') /\
    (~ In file rest -> vault w' !! file = Some o).
Proof.
  intros Ho Hread Hfails.
  assert (Hstep : decryptOne host pwh file w = (Throw e, log (EvRead file) w)).
  { unfold decryptOne, decryptFile, bind, read, ask, throw. rewrite Ho, Hread.
    destruct Hfails as [Hdec|(-> & envelope & Hdec & Hnull)].
    - rewrite Hdec. reflexivity.
    - rewrite Hdec, Hnull. reflexivity. }
  split; [exact Hstep|].
  set (w1 := extend [EvRead file; EvConsoleError "Failed to decrypt" (path o) e] w).
  assert (Hnext :
    forOfTryCatch "Failed to decrypt" (decryptOne host pwh) (file :: rest) ok fail w =
    forOfTryCatch "Failed to decrypt" (decryptOne host pwh) rest ok (S fail) w1).
  { simpl. unfold bind at 1. unfold tryCatch, bind at 1. rewrite Hstep.
    unfold console_error, bind, ret. simpl. f_equal.
    unfold w1, tfile, log, extend. simpl. rewrite Ho. simpl.
    rewrite <- app_assoc. reflexivity. }
  destruct (forOfTryCatch_BatchRun "Failed to decrypt" (decryptOne host pwh) rest
              ok (S fail) w1) as (okr & failr & w' & Hsteps & Hloop).
  exists okr, failr, w'. split; [exact Hsteps|]. split.
  - rewrite Hnext, Hloop. reflexivity.
  - intros Hnotin.
    assert (Hkeep : touchesOnly rest pwh w1 w').
    { eapply (forOfTryCatch_touchesOnly "Failed to decrypt" (decryptOne host pwh)
                rest pwh); [|apply incl_refl|exact Hloop].
      intros f w0 r0 w0' Hin. apply decryptOne_touchesOnly, Hin. }
    destruct Hkeep as (_ & Hkeep & _). rewrite (Hkeep file Hnotin). exact Ho.
Qed.

End Counting.

(** * Runs on the small vault *)

(** Encrypting [notes] when the write of [notes/b.md] fails: the two other
    markdown files are encrypted, [b] is left renamed with its old content,
    and the view that showed it is reopened. *)
Example encrypt_notes_notices :
  notices (trace (snd (processEncryptFolder Demo.failing Demo.notes Demo.world))) =
  ["Folder encrypted: 2 ok, 1 failed"].
Proof. vm_compute. reflexivity. Qed.

Example encrypt_notes_vault :
  take 3 (vault (snd (processEncryptFolder Demo.failing Demo.notes Demo.world))) =
  [ {| path := "notes/a.mdenc"; data := "{pw:alpha" |};
    {| path := "notes/b.mdenc"; data := "beta" |};
    {| path := "notes/sub/c.mdenc"; data := "{pw:gamma" |} ].
Proof. vm_compute. reflexivity. Qed.

Example encrypt_notes_calls_on_b :
  List.filter
    (fun e => match e with
              | EvRead 1 | EvDetach _ | EvDetachSafely _ | EvRenameFile 1 _ | EvModify 1 _
              | EvPutByFile _ 1 | EvOpenFile _ 1 | EvConsoleError _ _ _ => true
              | _ => false
              end)
    (trace (snd (processEncryptFolder Demo.failing Demo.notes Demo.world))) =
  [ EvRead 1; EvDetach 1; EvRenameFile 1 "notes/b.mdenc"; EvModify 1 "{pw:beta";
    EvOpenFile 4 1; EvConsoleError "Failed to encrypt" "notes/b.mdenc" "EIO" ].
Proof. vm_compute. reflexivity. Qed.

(** Decrypting [notes] with the password [pw]: one file decrypts, one does
    not decode and one was sealed with another password. *)
Example decrypt_notes_notices :
  notices (trace (snd (processDecryptFolder Demo.typing Demo.notes Demo.world))) =
  ["Folder decrypted: 1 ok, 2 failed"].
Proof. vm_compute. reflexivity. Qed.

Example decrypt_notes_cache :
  getByPath (session (snd (processDecryptFolder Demo.typing Demo.notes Demo.world)))
    "notes/e.md" = Demo.pw.
Proof. vm_compute. reflexivity. Qed.

(** * The statements on the small vault *)

Lemma cancelled_prompt_aborts_witness :
  processEncryptFolder Demo.dismissing Demo.notes Demo.world =
  (Ok tt,
   extend [EvGetByPath "notes";
           EvPasswordModal ("Encrypt Folder " +:+ dquote +:+ "notes" +:+ dquote)
             true true blankPasswordAndHint] Demo.world) /\
  processDecryptFolder Demo.dismissing Demo.notes Demo.world =
  (Ok tt,
   extend [EvGetByPath "notes";
           EvPasswordModal ("Decrypt Folder " +:+ dquote +:+ "notes" +:+ dquote)
             false false blankPasswordAndHint] Demo.world).
Proof.
  destruct (cancelled_prompt_aborts Demo.dismissing Demo.notes Demo.world "cancelled"
              eq_refl eq_refl) as [Hencrypt Hdecrypt].
  split.
  - apply Hencrypt; [vm_compute; discriminate | reflexivity].
  - apply Hdecrypt; [vm_compute; discriminate | reflexivity].
Defined.

Lemma reopen_iff_detached_witness :
  ((exists calls,
      trace (Demo.updated Demo.failing 1) =
        trace Demo.world ++ calls ++ [EvOpenFile (next_leaf Demo.world) 1] /\
      Forall (fun e => ~ isOpenFile e) calls) /\
   (exists l, In l (leaves (Demo.updated Demo.failing 1)) /\
              leaf_id l = next_leaf Demo.world /\ view_file l = Some 1)) /\
  (exists calls,
     trace (Demo.updated Demo.failing 0) = trace Demo.world ++ calls /\
     Forall (fun e => ~ isOpenFile e) calls).
Proof.
  split.
  - destruct (proj1 (reopen_iff_detached Demo.failing 1 "mdenc" "sealed" Demo.pw
                       Demo.world _ _ (run_eta _ _))) as [Hcalls Hleaf].
    + exists {| leaf_id := 1; view_class := TextFileView; view_file := Some 1 |}.
      split; [left; reflexivity | reflexivity].
    + split; [exact Hcalls|]. apply Hleaf; [reflexivity | vm_compute; lia].
  - apply (proj2 (reopen_iff_detached Demo.failing 0 "mdenc" "sealed" Demo.pw
                    Demo.world _ _ (run_eta _ _))).
    intros l Hl. vm_compute in Hl.
    destruct Hl as [<-|[<-|[<-|[]]]]; discriminate.
Defined.



Lemma transformed_file_witness :
  (exists o envelope,
     vault Demo.world !! 0 = Some o /\
     FileDataHelper_encrypt Demo.typing (log (EvRead 0) Demo.world) (password Demo.pw)
       (hint Demo.pw) (data o) = Ok envelope /\
     let np := getFilePathWithNewExtension o (ENCRYPTED_FILE_EXTENSION_DEFAULT Demo.typing) in
     vault (snd (encryptOne Demo.typing Demo.pw 0 Demo.world)) !! 0 =
       Some {| path := np; data := JsonFileEncoding_encode Demo.typing envelope |} /\
     getByPath (session (snd (encryptOne Demo.typing Demo.pw 0 Demo.world))) np = Demo.pw /\
     (has_char dot (ENCRYPTED_FILE_EXTENSION_DEFAULT Demo.typing) = false ->
      has_char slash (ENCRYPTED_FILE_EXTENSION_DEFAULT Demo.typing) = false ->
      parent_of np = parent_of (path o) /\
      basename_of np = basename_of (path o) /\
      extension_of np = ENCRYPTED_FILE_EXTENSION_DEFAULT Demo.typing)) /\
  (exists o envelope plaintext,
     vault Demo.world !! 5 = Some o /\
     JsonFileEncoding_decode Demo.typing (data o) = Ok envelope /\
     FileDataHelper_decrypt Demo.typing (log (EvRead 5) Demo.world) envelope
       (password Demo.pw) = Ok (Some plaintext) /\
     let np := getFilePathWithNewExtension o "md" in
     vault (snd (decryptOne Demo.typing Demo.pw 5 Demo.world)) !! 5 =
       Some {| path := np; data := plaintext |} /\
     getByPath (session (snd (decryptOne Demo.typing Demo.pw 5 Demo.world))) np = Demo.pw /\
     parent_of np = parent_of (path o) /\
     basename_of np = basename_of (path o) /\
     extension_of np = "md").
Proof.
  split.
  - apply (proj1 (transformed_file Demo.typing Demo.pw 0) Demo.world).
    vm_compute. reflexivity.
  - apply (proj2 (transformed_file Demo.typing Demo.pw 5) Demo.world).
    vm_compute. reflexivity.
Defined.

Lemma empty_folder_only_notice_witness :
  processEncryptFolder Demo.typing Demo.attic Demo.world =
  (Ok tt, extend [EvNotice "No markdown files to encrypt in this folder."] Demo.world) /\
  processDecryptFolder Demo.typing Demo.attic Demo.world =
  (Ok tt, extend [EvNotice "No encrypted files to decrypt in this folder."] Demo.world).
Proof.
  split.
  - apply (proj1 (empty_folder_only_notice Demo.typing Demo.attic Demo.world)).
    reflexivity.
  - apply (proj2 (empty_folder_only_notice Demo.typing Demo.attic Demo.world)).
    reflexivity.
Defined.

Lemma selected_files_witness :
  (In 2 (getMarkdownFiles Demo.notes Demo.world) <->
   (folder_path Demo.notes = EmptyString \/
    exists rest, path (tfile Demo.world 2) = folder_path Demo.notes +:+ "/" +:+ rest) /\
   extension (tfile Demo.world 2) = "md") /\
  (In 2 (getEncryptedFiles Demo.typing Demo.notes Demo.world) <->
   (folder_path Demo.notes = EmptyString \/
    exists rest, path (tfile Demo.world 2) = folder_path Demo.notes +:+ "/" +:+ rest) /\
   In (extension (tfile Demo.world 2)) (ENCRYPTED_FILE_EXTENSIONS Demo.typing)).
Proof.
  apply (proj1 (selected_files Demo.typing Demo.notes Demo.world 2)).
  vm_compute. tauto.
Defined.

Lemma write_failure_skips_cache_witness :
  exists e' w',
    closeUpdateRememberPasswordThenReopen Demo.failing 1 "mdenc" "sealed" Demo.pw
      Demo.world = (Throw e', w') /\
    session w' = session Demo.world /\
    path (tfile w' 1) = "notes/b.mdenc" /\
    trace w' =
      trace Demo.world ++ detachEvents 1 (leaves Demo.world) ++
      [EvRenameFile 1 "notes/b.mdenc"; EvModify 1 "sealed"] ++
      reopenCalls (existsb (showsFile 1) (leaves Demo.world)) 1 Demo.world /\
    (e' = "EIO" \/
     existsb (showsFile 1) (leaves Demo.world) = true /\
     exists w0, openFile_fault Demo.failing w0 1 = Some e').
Proof.
  apply (write_failure_skips_cache Demo.failing 1 "mdenc" "sealed" Demo.pw Demo.world
           (snd (renameFile Demo.failing 1 "notes/b.mdenc"
                   (afterDetach 1 (leaves Demo.world) Demo.world)))
           (snd (modify Demo.failing 1 "sealed"
                   (snd (renameFile Demo.failing 1 "notes/b.mdenc"
                           (afterDetach 1 (leaves Demo.world) Demo.world)))))
           "EIO").
  - vm_compute. reflexivity.
  - vm_compute. reflexivity.
Defined.

(** * The further properties on the small vault *)

Lemma batch_touches_only_eligible_files_witness :
  length (vault (snd (processEncryptFolder Demo.failing Demo.notes Demo.world))) =
    length (vault Demo.world) /\
  forall f, ~ In f (getMarkdownFiles Demo.notes Demo.world) ->
    vault (snd (processEncryptFolder Demo.failing Demo.notes Demo.world)) !! f =
    vault Demo.world !! f.
Proof.
  apply (proj1 (batch_touches_only_eligible_files Demo.failing Demo.notes Demo.world)
           _ _ (run_eta _ _)).
Defined.

Lemma batch_calls_in_footprint_witness :
  exists ok fail evs w',
    processDecryptFolder Demo.typing Demo.notes Demo.world = (Ok tt, w') /\
    trace w' =
      trace (snd (promptPasswordForFolder Demo.typing
                    ("Decrypt Folder " +:+ dquote +:+ folder_name Demo.notes +:+ dquote)
                    false (folder_path Demo.notes) Demo.world)) ++
      evs ++ [EvNotice (summary "decrypted" ok fail)] /\
    Forall (inFootprint (getEncryptedFiles Demo.typing Demo.notes Demo.world) Demo.pw) evs.
Proof.
  apply (proj2 (batch_calls_in_footprint Demo.typing Demo.notes Demo.world) Demo.pw).
  - vm_compute. discriminate.
  - vm_compute. reflexivity.
Defined.


Lemma undecryptable_batch_changes_nothing_witness :
  exists evs w',
    processDecryptFolder Demo.mistyping Demo.notes Demo.world = (Ok tt, w') /\
    sameState Demo.world w' /\
    trace w' = trace Demo.world ++ evs /\
    notices evs =
      [summary "decrypted" 0 (length (getEncryptedFiles Demo.mistyping Demo.notes Demo.world))].
Proof.
  apply (undecryptable_batch_changes_nothing Demo.mistyping Demo.notes Demo.world
           {| password := "nope"; hint := "h" |}
           (snd (promptPasswordForFolder Demo.mistyping
                   ("Decrypt Folder " +:+ dquote +:+ folder_name Demo.notes +:+ dquote)
                   false (folder_path Demo.notes) Demo.world))).
  - vm_compute. discriminate.
  - vm_compute. reflexivity.
  - intros f o envelope w0 plaintext Hin Ho Hdec.
    vm_compute in Hin.
    destruct Hin as [<-|[<-|[<-|[]]]]; vm_compute in Ho; injection Ho as <-;
      vm_compute in Hdec; try discriminate; injection Hdec as <-;
      vm_compute; discriminate.
Defined.

Lemma encrypt_then_decrypt_restores_content_witness :
  decryptOne Demo.typing Demo.pw 0 (snd (encryptOne Demo.typing Demo.pw 0 Demo.world)) =
    closeUpdateRememberPasswordThenReopen Demo.typing 0 "md" "alpha" Demo.pw
      (log (EvRead 0) (snd (encryptOne Demo.typing Demo.pw 0 Demo.world))) /\
  forall w2,
    decryptOne Demo.typing Demo.pw 0 (snd (encryptOne Demo.typing Demo.pw 0 Demo.world)) =
      (Ok tt, w2) ->
    data (tfile w2 0) = "alpha".
Proof.
  apply (encrypt_then_decrypt_restores_content Demo.typing Demo.pw 0 Demo.world
           (snd (encryptOne Demo.typing Demo.pw 0 Demo.world))
           {| path := "notes/a.md"; data := "alpha" |}).
  - reflexivity.
  - vm_compute. reflexivity.
  - intros envelope. reflexivity.
  - intros envelope Hseal. vm_compute in Hseal. injection Hseal as <-.
    vm_compute. reflexivity.
  - reflexivity.
Defined.

Lemma reopen_failure_fails_an_updated_file_witness :
  exists evs w',
    closeUpdateRememberPasswordThenReopen Demo.blind 1 "mdenc" "sealed" Demo.pw Demo.world =
      (Throw "EOPEN", w') /\
    vault w' !! 1 =
      Some {| path := getFilePathWithNewExtension
                        {| path := "notes/b.md"; data := "beta" |} "mdenc";
              data := "sealed" |} /\
    trace w' = trace Demo.world ++ evs /\
    In (EvPutByFile Demo.pw 1) evs.
Proof.
  apply (reopen_failure_fails_an_updated_file Demo.blind 1 "mdenc" "sealed" Demo.pw
           Demo.world {| path := "notes/b.md"; data := "beta" |} "EOPEN").
  - reflexivity.
  - exists {| leaf_id := 1; view_class := TextFileView; view_file := Some 1 |}.
    split; [left; reflexivity | reflexivity].
  - intros w0 p. reflexivity.
  - intros w0 c. reflexivity.
  - intros w0. reflexivity.
Defined.

Lemma cache_write_only_after_update_witness :
  exists evs,
    trace (Demo.updated Demo.typing 1) = trace Demo.world ++ evs /\
    (fst (closeUpdateRememberPasswordThenReopen Demo.typing 1 "mdenc" "sealed" Demo.pw
            Demo.world) = Ok tt ->
     In (EvPutByFile Demo.pw 1) evs) /\
    ((exists p f, In (EvPutByFile p f) evs) ->
     exists o, vault Demo.world !! 1 = Some o /\
       vault (Demo.updated Demo.typing 1) !! 1 =
         Some {| path := getFilePathWithNewExtension o "mdenc"; data := "sealed" |}).
Proof.
  apply (cache_write_only_after_update Demo.typing 1 "mdenc" "sealed" Demo.pw Demo.world
           _ _ (run_eta _ _)).
Defined.

Lemma subfolder_selection_included_witness :
  (In 2 (getFilesRecursively Demo.sub Demo.world) ->
   In 2 (getFilesRecursively Demo.notes Demo.world)) /\
  (In 2 (getMarkdownFiles Demo.sub Demo.world) ->
   In 2 (getMarkdownFiles Demo.notes Demo.world)) /\
  (In 2 (getEncryptedFiles Demo.typing Demo.sub Demo.world) ->
   In 2 (getEncryptedFiles Demo.typing Demo.notes Demo.world)).
Proof.
  apply (subfolder_selection_included Demo.typing Demo.notes Demo.sub Demo.world 2).
  right. exists "sub". reflexivity.
Defined.

Lemma folder_menu_items_witness :
  exists added,
    onFileMenu Demo.typing [] (AFolder Demo.notes) = [] ++ added /\
    (map item_title added = ["Encrypt folder"; "Decrypt folder"] /\
     map item_icon added = ["folder-lock"; "folder-lock-open"] /\
     map item_onClick added =
       [processEncryptFolder Demo.typing Demo.notes;
        processDecryptFolder Demo.typing Demo.notes]) /\
    forall item, In item added ->
      forall w, exists evs w',
        item_onClick item w = (Ok tt, w') /\
        trace w' = trace w ++ evs /\ length (notices evs) <= 1.
Proof.
  apply (folder_menu_items Demo.typing [] (AFolder Demo.notes)).
Defined.

(** * The counters on the small vault *)

Lemma batch_counts_every_file_witness :
  exists ok fail evs w2,
    BatchRun "Failed to encrypt" (encryptOne Demo.failing Demo.pw)
      (getMarkdownFiles Demo.notes Demo.world)
      (snd (promptPasswordForFolder Demo.failing
              ("Encrypt Folder " +:+ dquote +:+ folder_name Demo.notes +:+ dquote)
              true (folder_path Demo.notes) Demo.world))
      ok fail w2 /\
    processEncryptFolder Demo.failing Demo.notes Demo.world =
      (Ok tt,
       log (EvNotice ("Folder encrypted: " +:+ pretty ok +:+ " ok, " +:+ pretty fail
                      +:+ " failed")) w2) /\
    trace w2 = trace Demo.world ++ evs /\
    notices evs = [] /\
    reads evs = getMarkdownFiles Demo.notes Demo.world /\
    length (consoleErrors evs) = fail /\
    ok + fail = length (getMarkdownFiles Demo.notes Demo.world).
Proof.
  apply (proj1 (batch_counts_every_file Demo.failing Demo.notes Demo.world) Demo.pw).
  - vm_compute. discriminate.
  - vm_compute. reflexivity.
Defined.

Lemma failed_decryption_is_counted_witness :
  (decryptOne Demo.typing Demo.pw 6 Demo.world =
     (Throw "SyntaxError", log (EvRead 6) Demo.world) /\
   exists okr failr w',
     BatchRun "Failed to decrypt" (decryptOne Demo.typing Demo.pw) [7]
       (extend [EvRead 6;
                EvConsoleError "Failed to decrypt" "notes/f.encrypted" "SyntaxError"]
          Demo.world)
       okr failr w' /\
     forOfTryCatch "Failed to decrypt" (decryptOne Demo.typing Demo.pw) [6; 7] 1 0
       Demo.world = (Ok (1 + okr, S (0 + failr)), w') /\
     (~ In 6 [7] -> vault w' !! 6 = Some {| path := "notes/f.encrypted"; data := "garbage" |})) /\
  (decryptOne Demo.typing Demo.pw 7 Demo.world =
     (Throw "Decryption failed", log (EvRead 7) Demo.world) /\
   exists okr failr w',
     BatchRun "Failed to decrypt" (decryptOne Demo.typing Demo.pw) []
       (extend [EvRead 7;
                EvConsoleError "Failed to decrypt" "notes/g.mdenc" "Decryption failed"]
          Demo.world)
       okr failr w' /\
     forOfTryCatch "Failed to decrypt" (decryptOne Demo.typing Demo.pw) [7] 1 1
       Demo.world = (Ok (1 + okr, S (1 + failr)), w') /\
     (~ In 7 [] -> vault w' !! 7 = Some {| path := "notes/g.mdenc"; data := "{other:eta" |})).
Proof.
  split.
  - apply (failed_decryption_is_counted Demo.typing Demo.pw 6 [7] 1 0 Demo.world
             {| path := "notes/f.encrypted"; data := "garbage" |} "SyntaxError"
             eq_refl eq_refl).
    left. reflexivity.
  - apply (failed_decryption_is_counted Demo.typing Demo.pw 7 [] 1 1 Demo.world
             {| path := "notes/g.mdenc"; data := "{other:eta" |} "Decryption failed"
             eq_refl eq_refl).
    right. split; [reflexivity|]. exists "other:eta". split; reflexivity.
Defined.

(** The loop on the two files that do not decrypt, with the counters 1 and
    0: both are counted as failed. *)
Example decrypt_loop_counts_failures :
  fst (forOfTryCatch "Failed to decrypt" (decryptOne Demo.typing Demo.pw) [6; 7] 1 0
         Demo.world) = Ok (1, 2).
Proof. vm_compute. reflexivity. Qed.
